(** * A shallow embedding of [backend/server.py]

    The storefront backend keeps three MongoDB collections ([products],
    [cart], [chat_history]) and calls a language model through
    [LlmChat.send_message].  Every route handler of the source is embedded
    below as a computation over an explicit database state that either
    returns a value or raises an exception.

    Modelling conventions.
    - A collection is the list of its documents in insertion order;
      [find_one], [update_one] and [delete_one] act on the first match.
    - Documents are the typed records of the pydantic models; Python [str]
      is [string] (byte strings; case folding and white space are those
      of ASCII), Python [int] is [Z], [datetime] is a [Z] time stamp,
      [float] is a binary64 float.
    - Requests are those the framework lets through to the handler: path
      and query parameters and the fields of a typed body have their
      declared types; the body of [POST /chat] is declared a [dict], so
      it is any JSON object.
    - The language model, the regular-expression engine of the store and
      the values drawn by the default factories ([uuid.uuid4],
      [datetime.now]) are inputs of the model. *)

From stdpp Require Import gmap strings list.
From Stdlib Require Import PrimFloat ZArith Ascii String DecimalString Lia.

#[local] Open Scope Z_scope.
#[local] Open Scope string_scope.
#[local] Set Warnings "-inexact-float,-register-all".

(** ** Python string operations used by the source *)

Module Str.

(** [c in string.ascii_uppercase] *)
Definition is_upper (c : ascii) : bool :=
  let n := nat_of_ascii c in (65 <=? n)%nat && (n <=? 90)%nat.

Definition lower_char (c : ascii) : ascii :=
  if is_upper c then ascii_of_nat (nat_of_ascii c + 32) else c.

(** [s.lower()] *)
Fixpoint lower (s : string) : string :=
  match s with
  | EmptyString => EmptyString
  | String c s' => String (lower_char c) (lower s')
  end.

(** [c.isspace()] on the ASCII range: TAB..CR, FS..US and the blank. *)
Definition is_space (c : ascii) : bool :=
  let n := nat_of_ascii c in
  ((9 <=? n)%nat && (n <=? 13)%nat) || ((28 <=? n)%nat && (n <=? 32)%nat).

Fixpoint lstrip (s : string) : string :=
  match s with
  | EmptyString => EmptyString
  | String c s' => if is_space c then lstrip s' else s
  end.

Fixpoint rstrip (s : string) : string :=
  match s with
  | EmptyString => EmptyString
  | String c s' =>
      match rstrip s' with
      | EmptyString => if is_space c then EmptyString else String c EmptyString
      | r => String c r
      end
  end.

(** [s.strip()] *)
Definition strip (s : string) : string := rstrip (lstrip s).

(** [s.split(sep)] for a one-character separator: never the empty list. *)
Fixpoint split (sep : ascii) (s : string) : list string :=
  match s with
  | EmptyString => [EmptyString]
  | String c s' =>
      if Ascii.eqb c sep then EmptyString :: split sep s'
      else match split sep s' with
           | [] => [String c EmptyString]
           | w :: ws => String c w :: ws
           end
  end.

(** [sep.join(l)] *)
Fixpoint join (sep : string) (l : list string) : string :=
  match l with
  | [] => EmptyString
  | [x] => x
  | x :: rest => x ++ sep ++ join sep rest
  end.

(** [bool(s)]: a string is truthy when it is not empty. *)
Definition truthy (s : string) : bool :=
  match s with EmptyString => false | _ => true end.

(** Number of occurrences of a character. *)
Fixpoint count (c : ascii) (s : string) : nat :=
  match s with
  | EmptyString => 0%nat
  | String d s' => ((if Ascii.eqb d c then 1 else 0) + count c s')%nat
  end.

End Str.

(** ** The pydantic models *)

Module Product.
Record t := mk {
  id : string;
  name : string;
  description : string;
  price : float;
  category : string;
  image_url : string;
  tags : list string;
  in_stock : bool;
  created_at : Z
}.
End Product.

Module CartItem.
Record t := mk {
  id : string;
  product_id : string;
  user_id : string;
  quantity : Z;
  added_at : Z
}.

(** The document after [{"$set": {"quantity": q}}]. *)
Definition set_quantity (q : Z) (c : t) : t :=
  mk (id c) (product_id c) (user_id c) q (added_at c).
End CartItem.

Module CartItemCreate.
Record t := mk {
  product_id : string;
  user_id : string;
  quantity : Z
}.
End CartItemCreate.

Module ChatMessage.
Record t := mk {
  id : string;
  user_id : string;
  message : string;
  response : string;
  timestamp : Z
}.
End ChatMessage.

(** What the two default factories of a model draw when it is built:
    [str(uuid.uuid4())] and [datetime.now(timezone.utc)]. *)
Record Fresh := { fresh_id : string; fresh_time : Z }.

(** ** The database *)

Record Db := {
  products : list Product.t;
  cart : list CartItem.t;
  chat_history : list ChatMessage.t
}.

Definition empty_db : Db := {| products := []; cart := []; chat_history := [] |}.

(** ** Exceptions and the handler monad *)

Inductive Exn :=
| HTTPException (status_code : Z) (detail : string)
| UpstreamError (msg : string)      (* raised by [LlmChat.send_message] *)
| OperationFailure (msg : string)   (* the store rejects a query *)
| ValueError (msg : string).

(** [str(n)] of an integer: its decimal digits. *)
Definition status_text (n : Z) : string := NilZero.string_of_int (Z.to_int n).

(** [str(e)]; for [HTTPException] this is Starlette's ["{status}: {detail}"]. *)
Definition str (e : Exn) : string :=
  match e with
  | HTTPException n d => status_text n ++ ": " ++ d
  | UpstreamError m => m
  | OperationFailure m => m
  | ValueError m => m
  end.

Inductive Outcome (A : Type) :=
| Return (a : A)
| Raise (e : Exn).
Arguments Return {A} a.
Arguments Raise {A} e.

(** A handler step reads and writes the database and returns or raises;
    what was written before a [Raise] stays written. *)
Definition M (A : Type) : Type := Db -> Db * Outcome A.

Definition ret {A} (a : A) : M A := fun db => (db, Return a).
Definition raise {A} (e : Exn) : M A := fun db => (db, Raise e).

Definition bind {A B} (m : M A) (k : A -> M B) : M B :=
  fun db =>
    match m db with
    | (db', Return a) => k a db'
    | (db', Raise e) => (db', Raise e)
    end.

Notation "'do' x <- m ; k" := (bind m (fun x => k))
  (at level 10, x name, m at level 100, k at level 200).
Notation "'exec' m ; k" := (bind m (fun _ => k))
  (at level 10, m at level 100, k at level 200).

(** [try: m except Exception as e: h e] *)
Definition try_except {A} (m : M A) (h : Exn -> M A) : M A :=
  fun db =>
    match m db with
    | (db', Return a) => (db', Return a)
    | (db', Raise e) => h e db'
    end.

(** The [except Exception as e: raise HTTPException(status_code=500,
    detail=str(e))] clause that closes most handlers.  [HTTPException]
    is itself an [Exception], so it is caught as well. *)
Definition reraise_500 {A} (m : M A) : M A :=
  try_except m (fun e => raise (HTTPException 500 (str e))).

Definition gets {A} (f : Db -> A) : M A := fun db => (db, Return (f db)).
Definition modify (f : Db -> Db) : M unit := fun db => (f db, Return tt).

(** A [for] loop that threads the local variables [acc] through its body. *)
Fixpoint for_each {A B} (l : list A) (acc : B) (body : B -> A -> M B) : M B :=
  match l with
  | [] => ret acc
  | x :: l' => do acc' <- body acc x; for_each l' acc' body
  end.

(** State and result of running a handler. *)
Definition run {A} (m : M A) (db : Db) : Db * Outcome A := m db.
Definition db_after {A} (m : M A) (db : Db) : Db := fst (m db).
Definition outcome {A} (m : M A) (db : Db) : Outcome A := snd (m db).

(** ** Collections: the Motor operations the handlers use *)

Section Collection.
Context {A : Type}.

(** [update_one(filter, {"$set": ...})]: the first match is rewritten. *)
Fixpoint update_first (P : A -> bool) (f : A -> A) (l : list A) : list A :=
  match l with
  | [] => []
  | x :: l' => if P x then f x :: l' else x :: update_first P f l'
  end.

(** [delete_one(filter)]: the first match is dropped; the second
    component is [result.deleted_count]. *)
Fixpoint delete_first (P : A -> bool) (l : list A) : list A * Z :=
  match l with
  | [] => ([], 0)
  | x :: l' =>
      if P x then (l', 1)
      else let (r, n) := delete_first P l' in (x :: r, n)
  end.
End Collection.

Definition with_products (f : list Product.t -> list Product.t) (db : Db) : Db :=
  {| products := f (products db); cart := cart db; chat_history := chat_history db |}.
Definition with_cart (f : list CartItem.t -> list CartItem.t) (db : Db) : Db :=
  {| products := products db; cart := f (cart db); chat_history := chat_history db |}.
Definition with_chat_history (f : list ChatMessage.t -> list ChatMessage.t) (db : Db) : Db :=
  {| products := products db; cart := cart db; chat_history := f (chat_history db) |}.

(** The query documents of the source, as predicates on documents. *)
Definition product_id_is (pid : string) (p : Product.t) : bool :=
  String.eqb (Product.id p) pid.
Definition product_name_is (n : string) (p : Product.t) : bool :=
  String.eqb (Product.name p) n.
Definition cart_user_is (uid : string) (c : CartItem.t) : bool :=
  String.eqb (CartItem.user_id c) uid.
Definition cart_id_is (iid : string) (c : CartItem.t) : bool :=
  String.eqb (CartItem.id c) iid.
Definition cart_pair_is (pid uid : string) (c : CartItem.t) : bool :=
  String.eqb (CartItem.product_id c) pid && String.eqb (CartItem.user_id c) uid.

(** [db.products.find_one(q)] *)
Definition products_find_one (P : Product.t -> bool) : M (option Product.t) :=
  gets (fun db => List.find P (products db)).
(** [db.products.insert_one(doc)] *)
Definition products_insert_one (p : Product.t) : M unit :=
  modify (with_products (fun l => (l ++ [p])%list)).
(** [db.cart.find_one(q)] *)
Definition cart_find_one (P : CartItem.t -> bool) : M (option CartItem.t) :=
  gets (fun db => List.find P (cart db)).
(** [db.cart.find(q).to_list(n)] *)
Definition cart_find (P : CartItem.t -> bool) (n : nat) : M (list CartItem.t) :=
  gets (fun db => firstn n (List.filter P (cart db))).
(** [db.cart.insert_one(doc)] *)
Definition cart_insert_one (c : CartItem.t) : M unit :=
  modify (with_cart (fun l => (l ++ [c])%list)).
(** [db.cart.update_one(q, {"$set": {"quantity": n}})] *)
Definition cart_update_one (P : CartItem.t -> bool) (n : Z) : M unit :=
  modify (with_cart (update_first P (CartItem.set_quantity n))).
(** [db.cart.delete_one(q)], returning [deleted_count] *)
Definition cart_delete_one (P : CartItem.t -> bool) : M Z :=
  fun db => let (l, n) := delete_first P (cart db) in
            (with_cart (fun _ => l) db, Return n).
(** [db.chat_history.insert_one(doc)] *)
Definition chat_history_insert_one (c : ChatMessage.t) : M unit :=
  modify (with_chat_history (fun l => (l ++ [c])%list)).

(** ** Filters of [db.products.find] *)

Inductive Field := FName | FDescription | FCategory.

Definition field (f : Field) (p : Product.t) : string :=
  match f with
  | FName => Product.name p
  | FDescription => Product.description p
  | FCategory => Product.category p
  end.

Inductive Cond :=
| FieldEq (f : Field) (v : string)         (* {f: v} *)
| FieldRegex (f : Field) (re : string)     (* {f: {"$regex": re}} *)
| TagsIn (vs : list string).               (* {"tags": {"$in": vs}} *)

Inductive Clause :=
| Must (c : Cond)
| AnyOf (cs : list Cond).                  (* {"$or": cs} *)

(** A query document: all its clauses must hold. *)
Definition Query := list Clause.

(** ** Sample products data *)

Module SampleProduct.
Record t := mk {
  name : string;
  price : float;
  category : string;
  image_url : string;
  tags : list string
}.
End SampleProduct.

Definition SAMPLE_PRODUCTS : list SampleProduct.t := [
  SampleProduct.mk "Wireless Noise-Cancelling Headphones" 299.99 "electronics"
    "https://images.unsplash.com/photo-1498049794561-7780e7231661?crop=entropy&cs=srgb&fm=jpg&ixid=M3w3NDQ2NDF8MHwxfHNlYXJjaHwxfHxlbGVjdHJvbmljc3xlbnwwfHx8fDE3NTc5MDE4ODZ8MA&ixlib=rb-4.1.0&q=85"
    ["wireless"; "noise-cancelling"; "audio"; "premium"];
  SampleProduct.mk "Smart Laptop Pro" 1299.99 "electronics"
    "https://images.unsplash.com/photo-1550009158-9ebf69173e03?crop=entropy&cs=srgb&fm=jpg&ixid=M3w3NDQ2NDF8MHwxfHNlYXJjaHw0fHxlbGVjdHJvbmljc3xlbnwwfHx8fDE3NTc5MDE4ODZ8MA&ixlib=rb-4.1.0&q=85"
    ["laptop"; "professional"; "high-performance"; "portable"];
  SampleProduct.mk "Premium Fashion Tracksuit" 149.99 "fashion"
    "https://images.unsplash.com/photo-1515886657613-9f3515b0c78f?crop=entropy&cs=srgb&fm=jpg&ixid=M3w3NTY2NzF8MHwxfHNlYXJjaHwxfHxmYXNoaW9ufGVufDB8fHx8MTc1Nzg2NTgxNnww&ixlib=rb-4.1.0&q=85"
    ["tracksuit"; "comfortable"; "stylish"; "casual"];
  SampleProduct.mk "Designer Shopping Bag Set" 89.99 "fashion"
    "https://images.unsplash.com/photo-1483985988355-763728e1935b?crop=entropy&cs=srgb&fm=jpg&ixid=M3w3NTY2NzF8MHwxfHNlYXJjaHwyfHxmYXNoaW9ufGVufDB8fHx8MTc1Nzg2NTgxNnww&ixlib=rb-4.1.0&q=85"
    ["bags"; "designer"; "shopping"; "accessories"];
  SampleProduct.mk "Modern Home Shelf System" 199.99 "home"
    "https://images.unsplash.com/photo-1524634126442-357e0eac3c14?crop=entropy&cs=srgb&fm=jpg&ixid=M3w3NDQ2NDF8MHwxfHNlYXJjaHwxfHxob21lJTIwcHJvZHVjdHN8ZW58MHx8fHwxNzU3OTAxODk1fDA&ixlib=rb-4.1.0&q=85"
    ["shelving"; "modern"; "storage"; "minimalist"];
  SampleProduct.mk "Ceramic Home Decor Set" 79.99 "home"
    "https://images.unsplash.com/photo-1514237487632-b60bc844a47d?crop=entropy&cs=srgb&fm=jpg&ixid=M3w3NDQ2NDF8MHwxfHNlYXJjaHwyfHxob21lJTIwcHJvZHVjdHN8ZW58MHx8fHwxNzU3OTAxODk1fDA&ixlib=rb-4.1.0&q=85"
    ["ceramic"; "decor"; "minimalist"; "artistic"];
  SampleProduct.mk "Smart Watch Pro" 399.99 "electronics"
    "https://images.pexels.com/photos/356056/pexels-photo-356056.jpeg"
    ["smartwatch"; "fitness"; "technology"; "premium"];
  SampleProduct.mk "Contemporary Furniture Piece" 599.99 "home"
    "https://images.unsplash.com/photo-1467043153537-a4fba2cd39ef?crop=entropy&cs=srgb&fm=jpg&ixid=M3w3NDQ2NDF8MHwxfHNlYXJjaHwzfHxob21lJTIwcHJvZHVjdHN8ZW58MHx8fHwxNzU3OTAxODk1fDA&ixlib=rb-4.1.0&q=85"
    ["furniture"; "contemporary"; "design"; "quality"]
].

(** ** Untyped request bodies

    [POST /chat] takes [message: dict]: every JSON object reaches the
    handler, its values of any JSON type. *)

Inductive Json :=
| JNull
| JBool (b : bool)
| JInt (n : Z)
| JFloat (x : float)
| JString (s : string)
| JArray (items : list Json)
| JObject (fields : list (string * Json)).

(** What the libraries make of a body value that is not a text.  The
    handler hands such a value to three of them:
    - to the store, as the value in [{"user_id": value}]: the cart
      entries the query selects, or [None] when the store refuses the
      query;
    - to Python's [str()], inside the f-string of the prompt;
    - to pydantic, as a number or a boolean for a [str] field: the text
      it is turned into, or [None] when it is refused (the two major
      versions of pydantic differ here). *)
Record Untyped := {
  query_by : Json -> option (CartItem.t -> bool);
  py_str : Json -> string;
  coerce_scalar : Json -> option string
}.

(** [{"user_id": user_id}] as a query on the cart. *)
Definition user_id_query (lib : Untyped) (user_id : Json)
  : option (CartItem.t -> bool) :=
  match user_id with
  | JString s => Some (cart_user_is s)
  | _ => query_by lib user_id
  end.

(** [f"{value}"] *)
Definition format_value (lib : Untyped) (value : Json) : string :=
  match value with
  | JString s => s
  | _ => py_str lib value
  end.

(** pydantic's validation of a value given for a [str] field: a text is
    taken as it is; null, arrays and objects are refused. *)
Definition str_field (lib : Untyped) (value : Json) : option string :=
  match value with
  | JString s => Some s
  | JBool _ | JInt _ | JFloat _ => coerce_scalar lib value
  | JNull | JArray _ | JObject _ => None
  end.

(** ** The handlers *)

Section Handlers.

(** [chat.send_message(UserMessage(text=prompt))] on the chat built by
    [get_ai_chat]: the completion, or the exception the provider raised. *)
Variable send_message : string -> Outcome string.

(** The store's regular-expression engine: [None] for a pattern it
    rejects, otherwise the unanchored search predicate of the pattern. *)
Variable regex_compile : string -> option (string -> bool).

Definition call_llm (prompt : string) : M string :=
  fun db => (db, send_message prompt).

(** *** AI helper functions *)

Definition generate_product_description (product_name category : string) : M string :=
  let prompt :=
    "Generate a compelling, detailed product description for: " ++ product_name
    ++ " in the " ++ category
    ++ " category. Make it sound appealing and highlight key features. Keep it under 150 words." in
  do response <- call_llm prompt;
  ret response.

(** The prompt of [get_smart_search_results]. *)
Definition smart_search_prompt (query : string) (category : option string) : string :=
  let category_filter :=
    match category with
    | Some c => if Str.truthy c then " in the " ++ c ++ " category" else ""
    | None => ""
    end in
  "For the search query '" ++ query ++ "'" ++ category_filter
  ++ ", provide 5-10 relevant product search terms or related keywords that would help find similar items. Return only the keywords separated by commas, no explanations.".

Definition get_smart_search_results (query : string) (category : option string)
  : M (list string) :=
  do response <- call_llm (smart_search_prompt query category);
  let keywords := map Str.strip (Str.split "," response) in
  ret keywords.

(** The loop [for item in user_cart] of the three cart readers: each
    entry whose product resolves contributes [render item product]. *)
Definition resolve_each {B} (user_cart : list CartItem.t)
    (render : CartItem.t -> Product.t -> B) : M (list B) :=
  for_each user_cart [] (fun acc item =>
    do product <- products_find_one (product_id_is (CartItem.product_id item));
    match product with
    | Some p => ret (acc ++ [render item p])%list
    | None => ret acc
    end).

(** The prompt of [get_product_recommendations]. *)
Definition recommendation_prompt (cart_items : list string) : string :=
  let context :=
    match cart_items with
    | [] => "New user with no purchase history"
    | _ => "User has these items in cart/history: " ++ Str.join ", " cart_items
    end in
  "Based on this context: " ++ context
  ++ ". Recommend 3-5 product categories or types that would complement their interests. Return only category names separated by commas.".

Definition get_product_recommendations (user_id : string) : M (list string) :=
  do user_cart <- cart_find (cart_user_is user_id) 10;
  do cart_items <- resolve_each user_cart (fun _ product =>
       Product.name product ++ " (" ++ Product.category product ++ ")");
  do response <- call_llm (recommendation_prompt cart_items);
  let categories := map (fun cat => Str.lower (Str.strip cat)) (Str.split "," response) in
  ret categories.

(** *** Executing a product query *)

Definition compile_cond (c : Cond) : option (Product.t -> bool) :=
  match c with
  | FieldEq f v => Some (fun p => String.eqb (field f p) v)
  | FieldRegex f re =>
      match regex_compile re with
      | Some search => Some (fun p => search (field f p))
      | None => None
      end
  | TagsIn vs =>
      Some (fun p => existsb (fun t => existsb (String.eqb t) vs) (Product.tags p))
  end.

Fixpoint compile_any (cs : list Cond) : option (Product.t -> bool) :=
  match cs with
  | [] => Some (fun _ => false)
  | c :: cs' =>
      match compile_cond c, compile_any cs' with
      | Some f, Some g => Some (fun p => f p || g p)
      | _, _ => None
      end
  end.

Definition compile_clause (c : Clause) : option (Product.t -> bool) :=
  match c with
  | Must c => compile_cond c
  | AnyOf cs => compile_any cs
  end.

Fixpoint compile_query (q : Query) : option (Product.t -> bool) :=
  match q with
  | [] => Some (fun _ => true)
  | c :: q' =>
      match compile_clause c, compile_query q' with
      | Some f, Some g => Some (fun p => f p && g p)
      | _, _ => None
      end
  end.

(** [db.products.find(q).limit(n).to_list(n)]: Motor refuses a negative
    length, the store refuses a pattern that does not compile. *)
Definition products_find (q : Query) (n : Z) : M (list Product.t) :=
  if (n <? 0)%Z then raise (ValueError "length must be non-negative")
  else match compile_query q with
       | None => raise (OperationFailure "Regular expression is invalid")
       | Some matches =>
           gets (fun db => firstn (Z.to_nat n) (List.filter matches (products db)))
       end.

(** *** Routes *)

(** The body of the loop of [seed_products]; [i] counts the products
    built so far and selects the values their factories draw. *)
Definition seed_one (fresh : nat -> Fresh) (i : nat) (product_data : SampleProduct.t)
  : M nat :=
  do description <- generate_product_description
       (SampleProduct.name product_data) (SampleProduct.category product_data);
  let product :=
    Product.mk (fresh_id (fresh i))
      (SampleProduct.name product_data)
      description
      (SampleProduct.price product_data)
      (SampleProduct.category product_data)
      (SampleProduct.image_url product_data)
      (SampleProduct.tags product_data)
      true
      (fresh_time (fresh i)) in
  do existing <- products_find_one (product_name_is (Product.name product));
  exec (match existing with
        | None => products_insert_one product
        | Some _ => ret tt
        end);
  ret (S i).

Definition seed_from (samples : list SampleProduct.t) (fresh : nat -> Fresh) : M string :=
  reraise_500 (
    exec for_each samples 0%nat (seed_one fresh);
    ret "Products seeded successfully").

(** [POST /products/seed] *)
Definition seed_products (fresh : nat -> Fresh) : M string :=
  seed_from SAMPLE_PRODUCTS fresh.

(** [search_terms = [search] + keywords] *)
Definition search_terms (search : string) (keywords : list string) : list string :=
  search :: keywords.

(** The [$or] clause built from the search terms. *)
Definition search_clause (terms : list string) : Clause :=
  let search_regex := Str.join "|" (map (fun term => "(?i)" ++ term) terms) in
  AnyOf [FieldRegex FName search_regex;
         FieldRegex FDescription search_regex;
         TagsIn (map Str.lower terms)].

(** [query = {}], then [query["category"] = category] for a truthy
    category. *)
Definition category_query (category : option string) : Query :=
  match category with
  | Some c => if Str.truthy c then [Must (FieldEq FCategory c)] else []
  | None => []
  end.

(** The query document [get_products] builds before it runs it. *)
Definition search_query (category search : option string) : M Query :=
  let query := category_query category in
  match search with
  | Some s =>
      if Str.truthy s then
        do keywords <- get_smart_search_results s category;
        ret (query ++ [search_clause (search_terms s keywords)])%list
      else ret query
  | None => ret query
  end.

(** [GET /products]; [limit] is the validated query parameter. *)
Definition get_products (category search : option string) (limit : Z)
  : M (list Product.t) :=
  reraise_500 (
    do query <- search_query category search;
    do products <- products_find query limit;
    ret products).

(** [GET /products/{product_id}] *)
Definition get_product (product_id : string) : M Product.t :=
  do product <- products_find_one (product_id_is product_id);
  match product with
  | None => raise (HTTPException 404 "Product not found")
  | Some p => ret p
  end.

(** [GET /products/recommendations/{user_id}]: the recommended products
    and the recommended categories. *)
Definition get_recommendations (user_id : string)
  : M (list Product.t * list string) :=
  reraise_500 (
    do recommended_categories <- get_product_recommendations user_id;
    do recommended_products <-
      for_each recommended_categories [] (fun acc category =>
        do products <- products_find [Must (FieldRegex FCategory ("(?i)" ++ category))] 2;
        ret (acc ++ products)%list);
    ret (recommended_products, recommended_categories)).

(** [POST /cart] *)
Definition add_to_cart (cart_item : CartItemCreate.t) (fresh : Fresh) : M CartItem.t :=
  reraise_500 (
    do product <- products_find_one (product_id_is (CartItemCreate.product_id cart_item));
    match product with
    | None => raise (HTTPException 404 "Product not found")
    | Some _ =>
        do existing_item <- cart_find_one
             (cart_pair_is (CartItemCreate.product_id cart_item)
                           (CartItemCreate.user_id cart_item));
        match existing_item with
        | Some existing =>
            let new_quantity :=
              (CartItem.quantity existing + CartItemCreate.quantity cart_item)%Z in
            exec cart_update_one (cart_id_is (CartItem.id existing)) new_quantity;
            ret (CartItem.set_quantity new_quantity existing)
        | None =>
            let cart_item_obj :=
              CartItem.mk (fresh_id fresh)
                (CartItemCreate.product_id cart_item)
                (CartItemCreate.user_id cart_item)
                (CartItemCreate.quantity cart_item)
                (fresh_time fresh) in
            exec cart_insert_one cart_item_obj;
            ret cart_item_obj
        end
    end).

(** [GET /cart/{user_id}]: each listed entry with its product. *)
Definition get_cart (user_id : string) : M (list (CartItem.t * Product.t)) :=
  reraise_500 (
    do cart_items <- cart_find (cart_user_is user_id) 100;
    do enriched_cart <- resolve_each cart_items (fun item product => (item, product));
    ret enriched_cart).

(** [DELETE /cart/{item_id}] *)
Definition remove_from_cart (item_id : string) : M string :=
  do deleted_count <- cart_delete_one (cart_id_is item_id);
  if (deleted_count =? 0)%Z
  then raise (HTTPException 404 "Cart item not found")
  else ret "Item removed from cart".

(** The prompt of [chat_with_ai]. *)
Definition enhanced_prompt (context_items : list string) (user_message : string) : string :=
  "User's cart contains: "
  ++ match context_items with
     | [] => "empty"
     | _ => Str.join ", " context_items
     end
  ++ ". User asks: " ++ user_message.

(** How the libraries treat the untyped values of a chat body. *)
Variable lib : Untyped.

(** [db.cart.find({"user_id": user_id}).to_list(n)] for a value taken
    from the body. *)
Definition cart_find_by_user (user_id : Json) (n : nat) : M (list CartItem.t) :=
  match user_id_query lib user_id with
  | Some selects => cart_find selects n
  | None => raise (OperationFailure "query refused")
  end.

(** [ChatMessage(user_id=.., message=.., response=..)]: when pydantic
    refuses a field it raises its [ValidationError], a [ValueError]. *)
Definition new_chat_message (fresh : Fresh) (user_id user_message : Json)
    (response : string) : M ChatMessage.t :=
  match str_field lib user_id, str_field lib user_message with
  | Some uid, Some text =>
      ret (ChatMessage.mk (fresh_id fresh) uid text response (fresh_time fresh))
  | _, _ => raise (ValueError "validation error for ChatMessage")
  end.

(** [POST /chat] *)
Definition chat_with_ai (message : gmap string Json) (fresh : Fresh) : M string :=
  reraise_500 (
    let user_message := default (JString "") (message !! "message") in
    let user_id := default (JString "anonymous") (message !! "user_id") in
    do user_cart <- cart_find_by_user user_id 10;
    do context_items <- resolve_each user_cart (fun _ product => Product.name product);
    do response <- call_llm (enhanced_prompt context_items (format_value lib user_message));
    do chat_record <- new_chat_message fresh user_id user_message response;
    exec chat_history_insert_one chat_record;
    ret response).

(** [db.products.distinct("category")]: every category of the collection
    once.  The store promises no order; the model lists the values in
    the order of their first occurrence. *)
Fixpoint distinct (l : list string) : list string :=
  match l with
  | [] => []
  | x :: l' => x :: List.filter (fun y => negb (String.eqb y x)) (distinct l')
  end.

Definition products_distinct_category : M (list string) :=
  gets (fun db => distinct (map Product.category (products db))).

(** [GET /] *)
Definition root : M string := ret "AI-Powered E-commerce API".

(** [GET /categories] *)
Definition get_categories : M (list string) :=
  do categories <- products_distinct_category;
  ret categories.

End Handlers.


(** ** Request sequences and sample states used in the statements *)

(** Successive [POST /cart] requests for one (user, product) pair, each
    with its quantity and the values its factories would draw. *)
Definition add_repeatedly (pid uid : string) (adds : list (Z * Fresh)) (db : Db) : Db :=
  fold_left
    (fun db a => db_after (add_to_cart (CartItemCreate.mk pid uid (fst a)) (snd a)) db)
    adds db.

Definition total_quantity (adds : list (Z * Fresh)) : Z :=
  fold_right Z.add 0%Z (map fst adds).

(** A catalog with the single product of the spec's search scenario. *)
Definition widget : Product.t :=
  Product.mk "p-1" "Widget" "A sturdy widget" 9.5 "home" "https://example.org/widget.jpg"
    ["gadget"] true 1000.

Definition fresh_a : Fresh := {| fresh_id := "c-1"; fresh_time := 2000 |}.
Definition fresh_b : Fresh := {| fresh_id := "c-2"; fresh_time := 3000 |}.

Definition widget_db : Db :=
  {| products := [widget]; cart := []; chat_history := [] |}.

(** The same catalog with two cart entries of user ["u1"]: one for the
    widget and one whose product is not in the catalog. *)
Definition widget_cart_db : Db :=
  {| products := [widget];
     cart := [CartItem.mk "c-1" "p-1" "u1" 2 2000; CartItem.mk "c-0" "p-gone" "u1" 1 1500];
     chat_history := [] |}.

(** The entries of [user_cart] whose product is in the catalog of [db],
    rendered: what the loop of [resolve_each] computes. *)
Definition resolved {B} (db : Db) (user_cart : list CartItem.t)
    (render : CartItem.t -> Product.t -> B) : list B :=
  flat_map (fun item =>
    match List.find (product_id_is (CartItem.product_id item)) (products db) with
    | Some p => [render item p]
    | None => []
    end) user_cart.

(** The first [n] cart entries of a user, as [db.cart.find(..).to_list(n)]
    returns them. *)
Definition user_cart_of (db : Db) (user_id : string) (n : nat) : list CartItem.t :=
  firstn n (List.filter (cart_user_is user_id) (cart db)).

(** The product names [chat_with_ai] puts in its prompt. *)
Definition chat_context (db : Db) (user_id : string) : list string :=
  resolved db (user_cart_of db user_id 10) (fun _ product => Product.name product).

(** Two language models for the examples: one that always answers
    [answer], one whose provider is down. *)
Definition ai_says (answer : string) : string -> Outcome string :=
  fun _ => Return answer.
Definition ai_down : string -> Outcome string :=
  fun _ => Raise (UpstreamError "provider unavailable").

(** Chat request bodies: a full one, the empty JSON object, one whose
    message is null and one whose only field is a null user. *)
Definition chat_body : gmap string Json :=
  <["message" := JString "Any deals?"]> (<["user_id" := JString "u1"]> ∅).
Definition empty_body : gmap string Json := ∅.
Definition null_message_body : gmap string Json :=
  <["message" := JNull]> (<["user_id" := JString "u1"]> ∅).

(** Libraries for the examples: a value that is not a text selects no
    cart entry, numbers and booleans are refused for a [str] field, and
    [str()] is given for the values the examples use. *)
Definition strict_lib : Untyped :=
  {| query_by := fun _ => Some (fun _ => false);
     py_str := fun value =>
       match value with
       | JNull => "None"
       | JBool true => "True"
       | JBool false => "False"
       | _ => ""
       end;
     coerce_scalar := fun _ => None |}.

(** Successive [POST /products/seed] requests, each with the language
    model and the factory values it meets. *)
Definition seed_repeatedly
    (runs : list ((string -> Outcome string) * (nat -> Fresh))) (db : Db) : Db :=
  fold_left (fun db r => db_after (seed_products (fst r) (snd r)) db) runs db.

(** [after] is [before] followed by products that were inserted only
    where no product of that name was present. *)
Definition inserted_only_if_absent (before after : list Product.t) : Prop :=
  exists added,
    after = (before ++ added)%list
    /\ List.NoDup (map Product.name added)
    /\ Forall (fun p => ~ In (Product.name p) (map Product.name before)) added.

Definition fresh_nth (i : nat) : Fresh :=
  {| fresh_id := String (ascii_of_nat (97 + i)) ""; fresh_time := Z.of_nat i |}.

(** A small regular-expression engine for the examples: alternations of
    literals, each optionally made case-insensitive by a leading [(?i)];
    any other use of a metacharacter is rejected. *)
Module LiteralRegex.
Definition is_meta (c : ascii) : bool :=
  existsb (Ascii.eqb c) (list_ascii_of_string "\^$.?*+()[]{}").

Fixpoint contains (sub s : string) : bool :=
  String.prefix sub s
  || match s with
     | EmptyString => false
     | String _ s' => contains sub s'
     end.

Definition alternative (a : string) : option (string -> bool) :=
  let ci := String.prefix "(?i)" a in
  let body := if ci then String.substring 4 (String.length a - 4) a else a in
  if existsb is_meta (list_ascii_of_string body) then None
  else Some (fun s => if ci then contains (Str.lower body) (Str.lower s)
                      else contains body s).

Definition compile (re : string) : option (string -> bool) :=
  fold_right
    (fun a acc =>
       match alternative a, acc with
       | Some f, Some g => Some (fun s => f s || g s)
       | _, _ => None
       end)
    (Some (fun _ => false))
    (Str.split "|" re).
End LiteralRegex.

(** The cart lines [get_product_recommendations] puts in its prompt. *)
Definition recommendation_context (db : Db) (user_id : string) : list string :=
  resolved db (user_cart_of db user_id 10)
    (fun _ product => Product.name product ++ " (" ++ Product.category product ++ ")").

(** The category list parsed from the model's answer. *)
Definition categories_of (response : string) : list string :=
  map (fun cat => Str.lower (Str.strip cat)) (Str.split "," response).

(** What one recommended category contributes: the first two products
    whose category field the pattern [(?i)category] finds a match in. *)
Definition products_in_category (regex_compile : string -> option (string -> bool))
    (db : Db) (category : string) : list Product.t :=
  match regex_compile ("(?i)" ++ category) with
  | Some search => firstn 2 (List.filter (fun p => search (Product.category p)) (products db))
  | None => []
  end.

(** The key of a cart entry: its product and its user. *)
Definition cart_pair (c : CartItem.t) : string * string :=
  (CartItem.product_id c, CartItem.user_id c).

(** A computation that leaves every database as it finds it. *)
Definition read_only {A} (m : M A) : Prop := forall db, db_after m db = db.

(** The status code of an exception that carries one. *)
Definition status (e : Exn) : option Z :=
  match e with
  | HTTPException n _ => Some n
  | _ => None
  end.

(** The prompt [generate_product_description] sends for a product. *)
Definition description_prompt (product_name category : string) : string :=
  "Generate a compelling, detailed product description for: " ++ product_name
  ++ " in the " ++ category
  ++ " category. Make it sound appealing and highlight key features. Keep it under 150 words.".

(** The [Product] that [seed_products] builds as its [i]-th product from
    a sample and the description generated for it. *)
Definition sample_product (fresh : nat -> Fresh) (i : nat)
    (product_data : SampleProduct.t) (description : string) : Product.t :=
  Product.mk (fresh_id (fresh i))
    (SampleProduct.name product_data)
    description
    (SampleProduct.price product_data)
    (SampleProduct.category product_data)
    (SampleProduct.image_url product_data)
    (SampleProduct.tags product_data)
    true
    (fresh_time (fresh i)).

(** The description the model gives for a sample, when it gives one. *)
Definition description_of (send_message : string -> Outcome string)
    (product_data : SampleProduct.t) : string :=
  match send_message (description_prompt (SampleProduct.name product_data)
                        (SampleProduct.category product_data)) with
  | Return description => description
  | Raise _ => ""
  end.

(** The products a seed run builds from [samples], counting from [i]. *)
Fixpoint seeded_products (send_message : string -> Outcome string) (fresh : nat -> Fresh)
    (i : nat) (samples : list SampleProduct.t) : list Product.t :=
  match samples with
  | [] => []
  | product_data :: samples' =>
      sample_product fresh i product_data (description_of send_message product_data)
      :: seeded_products send_message fresh (S i) samples'
  end.

(** A language model that fails on the prompts mentioning [needle] and
    answers all others. *)
Definition ai_fails_on (needle : string) : string -> Outcome string :=
  fun prompt =>
    if LiteralRegex.contains needle prompt
    then Raise (UpstreamError "provider unavailable")
    else Return "A fine product.".

(** The category test of [GET /products]: equality with a truthy
    [category] parameter, no test otherwise. *)
Definition in_category (category : option string) (p : Product.t) : bool :=
  match category with
  | Some c => if Str.truthy c then String.eqb (Product.category p) c else true
  | None => true
  end.

(** The pattern [get_products] makes of its search terms. *)
Definition search_regex (terms : list string) : string :=
  Str.join "|" (map (fun term => "(?i)" ++ term) terms).

(** * Properties of the handlers *)

(** ** Running a sequence *)

Lemma bind_run {A B} (m : M A) (k : A -> M B) db :
  bind m k db =
    match m db with
    | (db', Return a) => k a db'
    | (db', Raise e) => (db', Raise e)
    end.
Proof. reflexivity. Qed.

(** ** Collections *)

Section CollectionFacts.
Context {A : Type}.
Implicit Types (P : A -> bool) (l : list A).

Lemma filter_nil_Forall P l :
  List.filter P l = [] <-> Forall (fun x => P x = false) l.
Proof.
  induction l as [|x l IH]; simpl.
  - split; auto.
  - destruct (P x) eqn:E; split; intros H.
    + discriminate.
    + inversion H; congruence.
    + constructor; [assumption | now apply IH].
    + inversion H; now apply IH.
Qed.

Lemma find_none_Forall P l :
  List.find P l = None <-> Forall (fun x => P x = false) l.
Proof.
  induction l as [|x l IH]; simpl.
  - split; auto.
  - destruct (P x) eqn:E; split; intros H.
    + discriminate.
    + inversion H; congruence.
    + constructor; [assumption | now apply IH].
    + inversion H; now apply IH.
Qed.

Lemma find_app_skip P l1 l2 :
  Forall (fun x => P x = false) l1 ->
  List.find P (l1 ++ l2) = List.find P l2.
Proof.
  induction 1 as [|x l1 Hx _ IH]; simpl; [reflexivity|].
  now rewrite Hx.
Qed.

Lemma filter_app_skip P l1 l2 :
  Forall (fun x => P x = false) l1 ->
  List.filter P (l1 ++ l2) = List.filter P l2.
Proof.
  induction 1 as [|x l1 Hx _ IH]; simpl; [reflexivity|].
  now rewrite Hx.
Qed.

Lemma find_split P l e :
  List.find P l = Some e ->
  exists l1 l2, l = (l1 ++ e :: l2)%list /\ Forall (fun x => P x = false) l1 /\ P e = true.
Proof.
  induction l as [|x l IH]; simpl; [discriminate|].
  destruct (P x) eqn:E; intros H.
  - injection H as ->. exists [], l. auto.
  - destruct (IH H) as (l1 & l2 & -> & Hl1 & He).
    exists (x :: l1), l2. auto.
Qed.

Lemma In_firstn n l x : In x (firstn n l) -> In x l.
Proof.
  intros H. rewrite <- (firstn_skipn n l). apply in_or_app. now left.
Qed.

Lemma update_first_app_skip P (f : A -> A) l1 l2 :
  Forall (fun x => P x = false) l1 ->
  update_first P f (l1 ++ l2) = (l1 ++ update_first P f l2)%list.
Proof.
  induction 1 as [|x l1 Hx _ IH]; simpl; [reflexivity|].
  now rewrite Hx, IH.
Qed.

Lemma update_first_absent P (f : A -> A) l :
  Forall (fun x => P x = false) l -> update_first P f l = l.
Proof.
  induction 1 as [|x l Hx _ IH]; simpl; [reflexivity|].
  now rewrite Hx, IH.
Qed.

Lemma delete_first_absent P l :
  Forall (fun x => P x = false) l -> delete_first P l = (l, 0%Z).
Proof.
  induction 1 as [|x l Hx _ IH]; simpl; [reflexivity|].
  now rewrite Hx, IH.
Qed.

Lemma delete_first_present P l1 e l2 :
  Forall (fun x => P x = false) l1 -> P e = true ->
  delete_first P (l1 ++ e :: l2) = ((l1 ++ l2)%list, 1%Z).
Proof.
  induction 1 as [|x l1 Hx _ IH]; simpl; intros He.
  - now rewrite He.
  - now rewrite Hx, IH.
Qed.
End CollectionFacts.

(** ** Cart documents *)

Lemma set_quantity_same c : CartItem.set_quantity (CartItem.quantity c) c = c.
Proof. now destruct c. Qed.

Lemma set_quantity_twice q1 q2 c :
  CartItem.set_quantity q2 (CartItem.set_quantity q1 c) = CartItem.set_quantity q2 c.
Proof. reflexivity. Qed.

Lemma cart_pair_is_set_quantity pid uid q c :
  cart_pair_is pid uid (CartItem.set_quantity q c) = cart_pair_is pid uid c.
Proof. reflexivity. Qed.

(** Two different entries of a cart whose identifiers are pairwise
    distinct are told apart by [cart_id_is]. *)
Lemma unique_ids_before (l1 l2 : list CartItem.t) e :
  List.NoDup (map CartItem.id (l1 ++ e :: l2)) ->
  Forall (fun x => cart_id_is (CartItem.id e) x = false) l1.
Proof.
  rewrite map_app. simpl. intros H.
  apply NoDup_remove_2 in H.
  apply List.Forall_forall. intros x Hx.
  unfold cart_id_is. apply String.eqb_neq. intros Heq.
  apply H. apply in_or_app. left. rewrite <- Heq. now apply in_map.
Qed.

Lemma cart_id_is_refl c : cart_id_is (CartItem.id c) c = true.
Proof. unfold cart_id_is. apply String.eqb_refl. Qed.

(** ** [add_to_cart], case by case *)

Lemma add_to_cart_unknown_product req fr db :
  List.find (product_id_is (CartItemCreate.product_id req)) (products db) = None ->
  add_to_cart req fr db = (db, Raise (HTTPException 500 "404: Product not found")).
Proof.
  intros H.
  unfold add_to_cart, reraise_500, try_except, bind, products_find_one, gets.
  now rewrite H.
Qed.

Lemma add_to_cart_new req fr db p :
  List.find (product_id_is (CartItemCreate.product_id req)) (products db) = Some p ->
  List.find (cart_pair_is (CartItemCreate.product_id req) (CartItemCreate.user_id req))
    (cart db) = None ->
  let obj := CartItem.mk (fresh_id fr) (CartItemCreate.product_id req)
               (CartItemCreate.user_id req) (CartItemCreate.quantity req) (fresh_time fr) in
  add_to_cart req fr db = (with_cart (fun l => l ++ [obj])%list db, Return obj).
Proof.
  intros Hp Hc.
  unfold add_to_cart, reraise_500, try_except, bind, products_find_one,
    cart_find_one, cart_insert_one, gets, modify, ret.
  now rewrite Hp, Hc.
Qed.

Lemma add_to_cart_existing req fr db p e :
  List.find (product_id_is (CartItemCreate.product_id req)) (products db) = Some p ->
  List.find (cart_pair_is (CartItemCreate.product_id req) (CartItemCreate.user_id req))
    (cart db) = Some e ->
  let q := (CartItem.quantity e + CartItemCreate.quantity req)%Z in
  add_to_cart req fr db =
    (with_cart (update_first (cart_id_is (CartItem.id e)) (CartItem.set_quantity q)) db,
     Return (CartItem.set_quantity q e)).
Proof.
  intros Hp Hc.
  unfold add_to_cart, reraise_500, try_except, bind, products_find_one,
    cart_find_one, cart_update_one, gets, modify, ret.
  now rewrite Hp, Hc.
Qed.

(** An entry that is the only one for its pair and sits last in the cart
    absorbs a further add for that pair. *)
Lemma add_to_cart_bumps_last pid uid q fr db old e p :
  List.find (product_id_is pid) (products db) = Some p ->
  cart db = (old ++ [e])%list ->
  Forall (fun x => cart_pair_is pid uid x = false) old ->
  Forall (fun x => cart_id_is (CartItem.id e) x = false) old ->
  cart_pair_is pid uid e = true ->
  db_after (add_to_cart (CartItemCreate.mk pid uid q) fr) db =
    with_cart (fun _ => old ++ [CartItem.set_quantity (CartItem.quantity e + q) e])%list db.
Proof.
  intros Hp Hcart Hpair Hid He.
  unfold db_after.
  rewrite (add_to_cart_existing _ fr db p e); simpl; try assumption.
  - unfold with_cart. rewrite Hcart.
    rewrite update_first_app_skip by assumption.
    simpl. now rewrite cart_id_is_refl.
  - rewrite Hcart, find_app_skip by assumption.
    simpl. now rewrite He.
Qed.

Lemma add_repeatedly_cons pid uid q fr adds db :
  add_repeatedly pid uid ((q, fr) :: adds) db =
    add_repeatedly pid uid adds (db_after (add_to_cart (CartItemCreate.mk pid uid q) fr) db).
Proof. reflexivity. Qed.

Lemma total_quantity_cons q fr adds :
  total_quantity ((q, fr) :: adds) = (q + total_quantity adds)%Z.
Proof. reflexivity. Qed.

Lemma add_repeatedly_bumps_last pid uid adds : forall db old e p,
  List.find (product_id_is pid) (products db) = Some p ->
  cart db = (old ++ [e])%list ->
  Forall (fun x => cart_pair_is pid uid x = false) old ->
  Forall (fun x => cart_id_is (CartItem.id e) x = false) old ->
  cart_pair_is pid uid e = true ->
  cart (add_repeatedly pid uid adds db) =
    (old ++ [CartItem.set_quantity (CartItem.quantity e + total_quantity adds) e])%list.
Proof.
  induction adds as [|[q fr] adds IH]; intros db old e p Hp Hcart Hpair Hid He.
  - unfold total_quantity. simpl. now rewrite Z.add_0_r, set_quantity_same.
  - rewrite add_repeatedly_cons, total_quantity_cons.
    rewrite (add_to_cart_bumps_last pid uid q fr db old e p) by assumption.
    rewrite (IH _ old (CartItem.set_quantity (CartItem.quantity e + q) e) p);
      try assumption; try reflexivity.
    simpl. now rewrite Z.add_assoc.
Qed.

(** C1. Starting from a cart without an entry for the pair (user,
    product), where the product is in the catalog and the identifier
    drawn for the new entry is not yet used in the cart, successive adds
    with positive quantities [q1 .. qN] leave exactly one entry for the
    pair, and its quantity is [q1 + ... + qN]. *)
Theorem cart_upsert_sums_quantities db pid uid q1 fr1 rest p :
  List.find (product_id_is pid) (products db) = Some p ->
  List.filter (cart_pair_is pid uid) (cart db) = [] ->
  ~ In (fresh_id fr1) (map CartItem.id (cart db)) ->
  Forall (fun a => (0 < fst a)%Z) ((q1, fr1) :: rest) ->
  exists e,
    List.filter (cart_pair_is pid uid)
      (cart (add_repeatedly pid uid ((q1, fr1) :: rest) db)) = [e]
    /\ CartItem.quantity e = total_quantity ((q1, fr1) :: rest).
Proof.
  intros Hp Hnone Hfresh _.
  apply filter_nil_Forall in Hnone.
  set (e := CartItem.mk (fresh_id fr1) pid uid q1 (fresh_time fr1)).
  assert (Hfirst : db_after (add_to_cart (CartItemCreate.mk pid uid q1) fr1) db
                   = with_cart (fun l => l ++ [e])%list db).
  { unfold db_after. rewrite (add_to_cart_new _ fr1 db p); try assumption; [reflexivity|].
    now apply find_none_Forall. }
  assert (Hid : Forall (fun x => cart_id_is (CartItem.id e) x = false) (cart db)).
  { apply List.Forall_forall. intros x Hx. unfold cart_id_is. apply String.eqb_neq.
    intros Heq. apply Hfresh. simpl in Heq. rewrite <- Heq. now apply in_map. }
  assert (He : cart_pair_is pid uid e = true).
  { unfold cart_pair_is. simpl. now rewrite !String.eqb_refl. }
  exists (CartItem.set_quantity (CartItem.quantity e + total_quantity rest) e).
  rewrite add_repeatedly_cons, total_quantity_cons, Hfirst.
  rewrite (add_repeatedly_bumps_last pid uid rest _ (cart db) e p);
    try assumption; try reflexivity.
  split; [|reflexivity].
  rewrite filter_app_skip by assumption.
  simpl. rewrite cart_pair_is_set_quantity. now rewrite He.
Qed.

Lemma cart_upsert_sums_quantities_witness :
  exists e,
    List.filter (cart_pair_is "p-1" "u1")
      (cart (add_repeatedly "p-1" "u1" [(2%Z, fresh_a); (3%Z, fresh_b)] widget_db)) = [e]
    /\ CartItem.quantity e = total_quantity [(2%Z, fresh_a); (3%Z, fresh_b)].
Proof.
  apply (cart_upsert_sums_quantities widget_db "p-1" "u1" 2%Z fresh_a [(3%Z, fresh_b)] widget).
  - reflexivity.
  - reflexivity.
  - simpl. tauto.
  - repeat constructor.
Defined.

(** The cart scenario of the spec: two adds of 2 and 3 for one pair, then
    the listing of the user's cart. *)
Example add_two_then_three_lists_five :
  outcome (get_cart "u1")
    (add_repeatedly "p-1" "u1" [(2%Z, fresh_a); (3%Z, fresh_b)] widget_db)
  = Return [(CartItem.mk "c-1" "p-1" "u1" 5 2000, widget)].
Proof. reflexivity. Qed.

(** C2. An add for a product identifier that is not in the catalog leaves
    the database as it was, but the 404 raised for it is caught by the
    handler's own [except Exception] clause and reaches the caller as a
    500. *)
Theorem add_to_cart_unknown_product_is_500 req fr db :
  List.find (product_id_is (CartItemCreate.product_id req)) (products db) = None ->
  run (add_to_cart req fr) db = (db, Raise (HTTPException 500 "404: Product not found")).
Proof. intros H. unfold run. now apply add_to_cart_unknown_product. Qed.

Lemma add_to_cart_unknown_product_is_500_witness :
  run (add_to_cart (CartItemCreate.mk "p-unknown" "u1" 1) fresh_a) widget_db
  = (widget_db, Raise (HTTPException 500 "404: Product not found")).
Proof. apply add_to_cart_unknown_product_is_500. reflexivity. Defined.

(** C8. In a cart whose identifiers are pairwise distinct, an add for a
    pair that already has an entry rewrites that entry's quantity and
    nothing else: identifier, product, user and time stamp of the entry,
    every other cart entry, the catalog and the chat history are as
    before.  (When the product has left the catalog the add fails and
    the quantity stays too.) *)
Theorem add_to_cart_existing_changes_quantity_only req fr db e :
  List.NoDup (map CartItem.id (cart db)) ->
  List.find (cart_pair_is (CartItemCreate.product_id req) (CartItemCreate.user_id req))
    (cart db) = Some e ->
  let db' := db_after (add_to_cart req fr) db in
  let q' := match List.find (product_id_is (CartItemCreate.product_id req)) (products db) with
            | Some _ => (CartItem.quantity e + CartItemCreate.quantity req)%Z
            | None => CartItem.quantity e
            end in
  exists l1 l2 e',
    cart db = (l1 ++ e :: l2)%list
    /\ cart db' = (l1 ++ e' :: l2)%list
    /\ CartItem.quantity e' = q'
    /\ CartItem.id e' = CartItem.id e
    /\ CartItem.product_id e' = CartItem.product_id e
    /\ CartItem.user_id e' = CartItem.user_id e
    /\ CartItem.added_at e' = CartItem.added_at e
    /\ products db' = products db
    /\ chat_history db' = chat_history db.
Proof.
  intros Hnodup Hfind. simpl.
  destruct (find_split _ _ _ Hfind) as (l1 & l2 & Hcart & Hl1 & He).
  exists l1, l2.
  destruct (List.find (product_id_is (CartItemCreate.product_id req)) (products db))
    as [p|] eqn:Hp.
  - exists (CartItem.set_quantity (CartItem.quantity e + CartItemCreate.quantity req) e).
    unfold db_after. rewrite (add_to_cart_existing req fr db p e) by assumption.
    simpl. rewrite Hcart in Hnodup |- *.
    rewrite update_first_app_skip by (now apply unique_ids_before with (l2 := l2)).
    simpl. rewrite cart_id_is_refl. repeat split; reflexivity.
  - exists e. unfold db_after. rewrite add_to_cart_unknown_product by assumption.
    simpl. repeat split; try reflexivity; assumption.
Qed.

Lemma add_to_cart_existing_changes_quantity_only_witness :
  exists l1 l2 e',
    cart widget_cart_db = (l1 ++ CartItem.mk "c-1" "p-1" "u1" 2 2000 :: l2)%list
    /\ cart (db_after (add_to_cart (CartItemCreate.mk "p-1" "u1" 3) fresh_b) widget_cart_db)
       = (l1 ++ e' :: l2)%list
    /\ CartItem.quantity e' = 5%Z
    /\ CartItem.id e' = "c-1"
    /\ CartItem.product_id e' = "p-1"
    /\ CartItem.user_id e' = "u1"
    /\ CartItem.added_at e' = 2000%Z
    /\ products (db_after (add_to_cart (CartItemCreate.mk "p-1" "u1" 3) fresh_b) widget_cart_db)
       = products widget_cart_db
    /\ chat_history (db_after (add_to_cart (CartItemCreate.mk "p-1" "u1" 3) fresh_b) widget_cart_db)
       = chat_history widget_cart_db.
Proof.
  apply (add_to_cart_existing_changes_quantity_only
           (CartItemCreate.mk "p-1" "u1" 3) fresh_b widget_cart_db
           (CartItem.mk "c-1" "p-1" "u1" 2 2000)).
  - simpl. repeat constructor; simpl; intuition discriminate.
  - reflexivity.
Defined.

(** ** Invariants of the cart store

    The hypotheses of the cart theorems are kept by the handlers: as long
    as the identifier drawn for a new entry is not in use, identifiers
    stay pairwise distinct, and no pair (product, user) gets a second
    entry. *)

Lemma update_first_set_quantity_ids P q (l : list CartItem.t) :
  map CartItem.id (update_first P (CartItem.set_quantity q) l) = map CartItem.id l.
Proof.
  induction l as [|x l IH]; simpl; [reflexivity|].
  destruct (P x); simpl; [reflexivity | now rewrite IH].
Qed.

Lemma update_first_set_quantity_pairs P q (l : list CartItem.t) :
  map cart_pair (update_first P (CartItem.set_quantity q) l) = map cart_pair l.
Proof.
  induction l as [|x l IH]; simpl; [reflexivity|].
  destruct (P x); simpl; [reflexivity | now rewrite IH].
Qed.

Lemma NoDup_snoc {A} (l : list A) x : List.NoDup l -> ~ In x l -> List.NoDup (l ++ [x]).
Proof.
  intros Hl Hx. apply List.NoDup_app; [assumption | repeat constructor; simpl; tauto |].
  intros a Ha [<-|[]]. contradiction.
Qed.

Lemma add_to_cart_cases req fr db :
  let db' := db_after (add_to_cart req fr) db in
  cart db' = cart db
  \/ (exists q e,
        List.find (cart_pair_is (CartItemCreate.product_id req) (CartItemCreate.user_id req))
          (cart db) = Some e
        /\ cart db' = update_first (cart_id_is (CartItem.id e)) (CartItem.set_quantity q)
                        (cart db))
  \/ (List.find (cart_pair_is (CartItemCreate.product_id req) (CartItemCreate.user_id req))
        (cart db) = None
      /\ cart db' = (cart db ++ [CartItem.mk (fresh_id fr) (CartItemCreate.product_id req)
                                   (CartItemCreate.user_id req)
                                   (CartItemCreate.quantity req) (fresh_time fr)])%list).
Proof.
  simpl. unfold db_after.
  destruct (List.find (product_id_is (CartItemCreate.product_id req)) (products db))
    as [p|] eqn:Hp.
  - destruct (List.find (cart_pair_is (CartItemCreate.product_id req)
                           (CartItemCreate.user_id req)) (cart db)) as [e|] eqn:He.
    + right. left. rewrite (add_to_cart_existing req fr db p e) by assumption.
      simpl. eauto.
    + right. right. rewrite (add_to_cart_new req fr db p) by assumption.
      simpl. auto.
  - left. now rewrite add_to_cart_unknown_product.
Qed.

Lemma add_to_cart_keeps_ids_distinct req fr db :
  List.NoDup (map CartItem.id (cart db)) ->
  ~ In (fresh_id fr) (map CartItem.id (cart db)) ->
  List.NoDup (map CartItem.id (cart (db_after (add_to_cart req fr) db))).
Proof.
  intros Hnodup Hfresh.
  destruct (add_to_cart_cases req fr db) as [-> | [(q & e & _ & ->) | (_ & ->)]].
  - assumption.
  - now rewrite update_first_set_quantity_ids.
  - rewrite map_app. simpl. now apply NoDup_snoc.
Qed.

Lemma add_to_cart_keeps_pairs_distinct req fr db :
  List.NoDup (map cart_pair (cart db)) ->
  List.NoDup (map cart_pair (cart (db_after (add_to_cart req fr) db))).
Proof.
  intros Hnodup.
  destruct (add_to_cart_cases req fr db) as [-> | [(q & e & _ & ->) | (Hnone & ->)]].
  - assumption.
  - now rewrite update_first_set_quantity_pairs.
  - rewrite map_app. simpl. apply NoDup_snoc; [assumption|].
    intros Hin. apply in_map_iff in Hin as (c & Hc & Hin).
    apply find_none_Forall in Hnone. rewrite List.Forall_forall in Hnone.
    specialize (Hnone c Hin). unfold cart_pair in Hc. injection Hc as Hp Hu.
    unfold cart_pair_is in Hnone. rewrite Hp, Hu, !String.eqb_refl in Hnone.
    discriminate.
Qed.

(** ** Reading the cart *)

Lemma for_each_resolve {B} (render : CartItem.t -> Product.t -> B) db l : forall acc,
  for_each l acc (fun acc item =>
    do product <- products_find_one (product_id_is (CartItem.product_id item));
    match product with
    | Some p => ret (acc ++ [render item p])%list
    | None => ret acc
    end) db
  = (db, Return (acc ++ resolved db l render)%list).
Proof.
  induction l as [|item l IH]; intros acc; simpl.
  - unfold ret, resolved. simpl. now rewrite app_nil_r.
  - unfold bind at 1. unfold bind at 1. unfold products_find_one, gets.
    unfold resolved. simpl.
    destruct (List.find (product_id_is (CartItem.product_id item)) (products db)) as [p|];
      unfold ret; rewrite IH; unfold resolved; simpl.
    + now rewrite <- app_assoc.
    + reflexivity.
Qed.

Lemma resolve_each_run {B} (render : CartItem.t -> Product.t -> B) db l :
  resolve_each l render db = (db, Return (resolved db l render)).
Proof. unfold resolve_each. now rewrite for_each_resolve. Qed.

Lemma in_resolved {B} (render : CartItem.t -> Product.t -> B) db l y :
  In y (resolved db l render) <->
  exists item p, In item l
    /\ List.find (product_id_is (CartItem.product_id item)) (products db) = Some p
    /\ y = render item p.
Proof.
  unfold resolved. rewrite in_flat_map. split.
  - intros (item & Hin & Hy).
    destruct (List.find _ _) as [p|] eqn:E; simpl in Hy; [|contradiction].
    destruct Hy as [<-|[]]. eauto.
  - intros (item & p & Hin & Hp & ->). exists item. rewrite Hp. simpl. auto.
Qed.

Lemma get_cart_run user_id db :
  get_cart user_id db =
    (db, Return (resolved db (user_cart_of db user_id 100) (fun item product => (item, product)))).
Proof.
  unfold get_cart, reraise_500, try_except, bind, cart_find, gets.
  now rewrite resolve_each_run.
Qed.

Lemma with_cart_same db : with_cart (fun _ => cart db) db = db.
Proof. now destruct db. Qed.

Lemma unique_ids_after (l1 l2 : list CartItem.t) e :
  List.NoDup (map CartItem.id (l1 ++ e :: l2)) ->
  Forall (fun x => cart_id_is (CartItem.id e) x = false) l2.
Proof.
  rewrite map_app. simpl. intros H.
  apply NoDup_remove_2 in H.
  apply List.Forall_forall. intros x Hx.
  unfold cart_id_is. apply String.eqb_neq. intros Heq.
  apply H. apply in_or_app. right. rewrite <- Heq. now apply in_map.
Qed.

Lemma remove_from_cart_absent item_id db :
  List.find (cart_id_is item_id) (cart db) = None ->
  remove_from_cart item_id db = (db, Raise (HTTPException 404 "Cart item not found")).
Proof.
  intros H. apply find_none_Forall in H.
  unfold remove_from_cart, bind, cart_delete_one.
  rewrite delete_first_absent by assumption. simpl.
  now rewrite with_cart_same.
Qed.

Lemma remove_from_cart_present item_id db l1 e l2 :
  cart db = (l1 ++ e :: l2)%list ->
  Forall (fun x => cart_id_is item_id x = false) l1 ->
  cart_id_is item_id e = true ->
  remove_from_cart item_id db =
    (with_cart (fun _ => l1 ++ l2)%list db, Return "Item removed from cart").
Proof.
  intros Hcart Hl1 He.
  unfold remove_from_cart, bind, cart_delete_one.
  rewrite Hcart, delete_first_present by assumption.
  reflexivity.
Qed.

(** C7. Fetching a product whose identifier is not in the catalog, and
    deleting a cart entry whose identifier is not in the cart, each raise
    a 404; the delete leaves the database as it was.  In a cart with
    pairwise distinct identifiers this is what a second delete of the
    same identifier meets. *)
Theorem absent_ids_are_not_found db product_id item_id :
  (List.find (product_id_is product_id) (products db) = None ->
   run (get_product product_id) db = (db, Raise (HTTPException 404 "Product not found")))
  /\ (List.find (cart_id_is item_id) (cart db) = None ->
      run (remove_from_cart item_id) db
      = (db, Raise (HTTPException 404 "Cart item not found")))
  /\ (List.NoDup (map CartItem.id (cart db)) ->
      let db1 := db_after (remove_from_cart item_id) db in
      run (remove_from_cart item_id) db1
      = (db1, Raise (HTTPException 404 "Cart item not found"))).
Proof.
  split; [|split].
  - intros H. unfold run, get_product, bind, products_find_one, gets. now rewrite H.
  - intros H. unfold run. now apply remove_from_cart_absent.
  - intros Hnodup. simpl. unfold run, db_after.
    destruct (List.find (cart_id_is item_id) (cart db)) as [e|] eqn:Hfind.
    + destruct (find_split _ _ _ Hfind) as (l1 & l2 & Hcart & Hl1 & He).
      rewrite (remove_from_cart_present item_id db l1 e l2) by assumption.
      simpl. apply remove_from_cart_absent. simpl.
      assert (Hid : CartItem.id e = item_id) by now apply String.eqb_eq.
      rewrite Hcart in Hnodup. subst item_id.
      apply find_none_Forall. apply Forall_app. split; [assumption|].
      now apply unique_ids_after with (l1 := l1).
    + rewrite (remove_from_cart_absent item_id db) by assumption. simpl.
      now apply remove_from_cart_absent.
Qed.

Lemma absent_ids_are_not_found_witness :
  run (get_product "p-unknown") widget_cart_db
  = (widget_cart_db, Raise (HTTPException 404 "Product not found"))
  /\ run (remove_from_cart "c-unknown") widget_cart_db
     = (widget_cart_db, Raise (HTTPException 404 "Cart item not found"))
  /\ run (remove_from_cart "c-1") (db_after (remove_from_cart "c-1") widget_cart_db)
     = (db_after (remove_from_cart "c-1") widget_cart_db,
        Raise (HTTPException 404 "Cart item not found")).
Proof.
  split; [|split].
  - apply (proj1 (absent_ids_are_not_found widget_cart_db "p-unknown" "c-unknown")).
    reflexivity.
  - apply (proj1 (proj2 (absent_ids_are_not_found widget_cart_db "p-unknown" "c-unknown"))).
    reflexivity.
  - apply (proj2 (proj2 (absent_ids_are_not_found widget_cart_db "p-unknown" "c-1"))).
    simpl. repeat constructor; simpl; intuition discriminate.
Defined.

(** C9. Listing a user's cart returns, of the (first hundred) entries of
    that user, exactly those whose product identifier resolves in the
    catalog, each with its product; an entry whose product is absent is
    left out without an error, and the database is not modified. *)
Theorem get_cart_lists_resolvable_entries user_id db :
  exists items,
    run (get_cart user_id) db = (db, Return items)
    /\ (forall item product, In (item, product) items ->
          In item (cart db)
          /\ CartItem.user_id item = user_id
          /\ List.find (product_id_is (CartItem.product_id item)) (products db)
             = Some product)
    /\ (forall item, In item (user_cart_of db user_id 100) ->
          match List.find (product_id_is (CartItem.product_id item)) (products db) with
          | Some product => In (item, product) items
          | None => ~ In item (map fst items)
          end).
Proof.
  exists (resolved db (user_cart_of db user_id 100) (fun item product => (item, product))).
  split; [apply get_cart_run|]. split.
  - intros item product H.
    apply in_resolved in H as (item' & p & Hin & Hp & Heq).
    injection Heq as -> ->.
    unfold user_cart_of in Hin. apply In_firstn in Hin.
    apply filter_In in Hin as [Hin Hu].
    repeat split; try assumption. now apply String.eqb_eq.
  - intros item Hin.
    destruct (List.find (product_id_is (CartItem.product_id item)) (products db))
      as [p|] eqn:Hp.
    + apply in_resolved. eauto.
    + intros H. apply in_map_iff in H as ([item' p'] & Heq & H). simpl in Heq. subst item'.
      apply in_resolved in H as (item'' & p'' & _ & Hp'' & Heq).
      injection Heq as -> ->. congruence.
Qed.

(** ** The conversation turn *)

Lemma string_length_app (s1 s2 : string) :
  String.length (s1 ++ s2) = (String.length s1 + String.length s2)%nat.
Proof. induction s1 as [|c s1 IH]; simpl; [reflexivity | now rewrite IH]. Qed.

(** The prompt embeds the user's message after a non-empty preamble, so
    it is never the message itself. *)
Lemma enhanced_prompt_is_not_message context_items user_message :
  enhanced_prompt context_items user_message <> user_message.
Proof.
  intros H. apply (f_equal String.length) in H.
  unfold enhanced_prompt in H.
  rewrite !string_length_app in H. simpl in H. lia.
Qed.

Lemma chat_with_ai_run send_message lib body fr db :
  let user_message := default (JString "") (body !! "message") in
  let user_id := default (JString "anonymous") (body !! "user_id") in
  chat_with_ai send_message lib body fr db =
    match user_id_query lib user_id with
    | None => (db, Raise (HTTPException 500 "query refused"))
    | Some selects =>
        match send_message
                (enhanced_prompt
                   (resolved db (firstn 10 (List.filter selects (cart db)))
                      (fun _ product => Product.name product))
                   (format_value lib user_message)) with
        | Raise e => (db, Raise (HTTPException 500 (str e)))
        | Return response =>
            match str_field lib user_id, str_field lib user_message with
            | Some uid, Some text =>
                (with_chat_history
                   (fun l => l ++ [ChatMessage.mk (fresh_id fr) uid text response
                                     (fresh_time fr)])%list db,
                 Return response)
            | _, _ => (db, Raise (HTTPException 500 "validation error for ChatMessage"))
            end
        end
    end.
Proof.
  simpl.
  unfold chat_with_ai, reraise_500, try_except. rewrite bind_run.
  unfold cart_find_by_user.
  destruct (user_id_query lib _) as [selects|]; [|reflexivity].
  unfold cart_find, gets. rewrite bind_run, resolve_each_run, bind_run.
  unfold call_llm.
  destruct (send_message _) as [response|e]; [|reflexivity].
  rewrite bind_run. unfold new_chat_message.
  destruct (str_field lib _) as [uid|]; [|reflexivity].
  destruct (str_field lib _) as [text|]; reflexivity.
Qed.

(** The turn of a body whose two fields are texts. *)
Lemma chat_with_ai_text_run send_message lib body fr db text uid :
  default (JString "") (body !! "message") = JString text ->
  default (JString "anonymous") (body !! "user_id") = JString uid ->
  chat_with_ai send_message lib body fr db =
    match send_message (enhanced_prompt (chat_context db uid) text) with
    | Return response =>
        (with_chat_history
           (fun l => l ++ [ChatMessage.mk (fresh_id fr) uid text response
                             (fresh_time fr)])%list db,
         Return response)
    | Raise e => (db, Raise (HTTPException 500 (str e)))
    end.
Proof.
  intros Hm Hu. rewrite chat_with_ai_run. cbv zeta. now rewrite Hm, Hu.
Qed.

(** A turn whose record pydantic refuses leaves nothing behind. *)
Lemma chat_with_ai_refused send_message lib body fr db :
  str_field lib (default (JString "anonymous") (body !! "user_id")) = None
  \/ str_field lib (default (JString "") (body !! "message")) = None ->
  db_after (chat_with_ai send_message lib body fr) db = db
  /\ exists detail,
       outcome (chat_with_ai send_message lib body fr) db
       = Raise (HTTPException 500 detail).
Proof.
  intros Hrefused. unfold db_after, outcome. rewrite chat_with_ai_run. cbv zeta.
  destruct (user_id_query lib _) as [selects|];
    [|simpl; split; [reflexivity | eexists; reflexivity]].
  destruct (send_message _) as [response|e];
    [|simpl; split; [reflexivity | eexists; reflexivity]].
  destruct Hrefused as [-> | Hm].
  - simpl; split; [reflexivity | eexists; reflexivity].
  - rewrite Hm.
    destruct (str_field lib (default (JString "anonymous") (body !! "user_id")));
      simpl; split; reflexivity || (eexists; reflexivity).
Qed.

(** C6 (as the code has it). In a conversation turn whose message and
    user fields are texts (or missing), an answer of the language model
    is returned and exactly one chat record is appended: it carries the
    user's own message, which is not the prompt sent to the model, and
    the answer as returned; catalog and cart stay.  When the model call
    raises, the database is left as it was and the caller gets a 500
    with the text of the exception.  A turn with a user or message
    value that pydantic does not accept for a text field, such as null,
    leaves the database as it was and ends in a 500, also when the model
    has answered. *)
Theorem chat_turn_is_recorded_when_fields_are_text send_message lib body fr db :
  (forall text uid,
     default (JString "") (body !! "message") = JString text ->
     default (JString "anonymous") (body !! "user_id") = JString uid ->
     (forall response,
        send_message (enhanced_prompt (chat_context db uid) text) = Return response ->
        outcome (chat_with_ai send_message lib body fr) db = Return response
        /\ chat_history (db_after (chat_with_ai send_message lib body fr) db)
           = (chat_history db
              ++ [ChatMessage.mk (fresh_id fr) uid text response (fresh_time fr)])%list
        /\ text <> enhanced_prompt (chat_context db uid) text
        /\ products (db_after (chat_with_ai send_message lib body fr) db) = products db
        /\ cart (db_after (chat_with_ai send_message lib body fr) db) = cart db)
     /\ (forall e,
           send_message (enhanced_prompt (chat_context db uid) text) = Raise e ->
           outcome (chat_with_ai send_message lib body fr) db
           = Raise (HTTPException 500 (str e))
           /\ db_after (chat_with_ai send_message lib body fr) db = db))
  /\ (str_field lib (default (JString "anonymous") (body !! "user_id")) = None
      \/ str_field lib (default (JString "") (body !! "message")) = None ->
      db_after (chat_with_ai send_message lib body fr) db = db
      /\ exists detail,
           outcome (chat_with_ai send_message lib body fr) db
           = Raise (HTTPException 500 detail)).
Proof.
  split.
  - intros text uid Hm Hu. unfold outcome, db_after.
    rewrite (chat_with_ai_text_run send_message lib body fr db text uid Hm Hu).
    split.
    + intros response Hr. rewrite Hr. simpl. repeat split.
      intros E. symmetry in E. now apply enhanced_prompt_is_not_message in E.
    + intros e He. rewrite He. now split.
  - apply chat_with_ai_refused.
Qed.

Lemma chat_turn_is_recorded_when_fields_are_text_witness :
  (outcome (chat_with_ai (ai_says "Try the Widget.") strict_lib chat_body fresh_a)
     widget_cart_db = Return "Try the Widget."
   /\ chat_history
        (db_after (chat_with_ai (ai_says "Try the Widget.") strict_lib chat_body fresh_a)
           widget_cart_db)
      = [ChatMessage.mk "c-1" "u1" "Any deals?" "Try the Widget." 2000]
   /\ "Any deals?" <> "User's cart contains: Widget. User asks: Any deals?"
   /\ products
        (db_after (chat_with_ai (ai_says "Try the Widget.") strict_lib chat_body fresh_a)
           widget_cart_db) = products widget_cart_db
   /\ cart
        (db_after (chat_with_ai (ai_says "Try the Widget.") strict_lib chat_body fresh_a)
           widget_cart_db) = cart widget_cart_db)
  /\ (outcome (chat_with_ai ai_down strict_lib chat_body fresh_a) widget_cart_db
      = Raise (HTTPException 500 "provider unavailable")
      /\ db_after (chat_with_ai ai_down strict_lib chat_body fresh_a) widget_cart_db
         = widget_cart_db)
  /\ (db_after (chat_with_ai (ai_says "Try the Widget.") strict_lib null_message_body
                  fresh_a) widget_cart_db = widget_cart_db
      /\ exists detail,
           outcome (chat_with_ai (ai_says "Try the Widget.") strict_lib null_message_body
                      fresh_a) widget_cart_db
           = Raise (HTTPException 500 detail)).
Proof.
  split; [|split].
  - apply (proj1 (proj1 (chat_turn_is_recorded_when_fields_are_text
                           (ai_says "Try the Widget.") strict_lib chat_body fresh_a
                           widget_cart_db)
                    "Any deals?" "u1" eq_refl eq_refl)).
    reflexivity.
  - apply (proj2 (proj1 (chat_turn_is_recorded_when_fields_are_text
                           ai_down strict_lib chat_body fresh_a widget_cart_db)
                    "Any deals?" "u1" eq_refl eq_refl)
             (UpstreamError "provider unavailable")).
    reflexivity.
  - apply (proj2 (chat_turn_is_recorded_when_fields_are_text
                    (ai_says "Try the Widget.") strict_lib null_message_body fresh_a
                    widget_cart_db)).
    right. reflexivity.
Defined.

(** C6 as claimed fails: for the body [{"message": null, "user_id":
    "u1"}] the model is asked and answers, yet no chat record is
    persisted and the caller gets a 500. *)
Lemma chat_turn_with_null_message_is_not_recorded :
  ai_says "Try the Widget."
    (enhanced_prompt (chat_context widget_cart_db "u1") (format_value strict_lib JNull))
  = Return "Try the Widget."
  /\ chat_history
       (db_after (chat_with_ai (ai_says "Try the Widget.") strict_lib null_message_body
                    fresh_a) widget_cart_db)
     = chat_history widget_cart_db
  /\ outcome (chat_with_ai (ai_says "Try the Widget.") strict_lib null_message_body
                fresh_a) widget_cart_db
     = Raise (HTTPException 500 "validation error for ChatMessage")
  /\ ~ exists record,
         chat_history
           (db_after (chat_with_ai (ai_says "Try the Widget.") strict_lib
                        null_message_body fresh_a) widget_cart_db)
         = (chat_history widget_cart_db ++ [record])%list.
Proof.
  split; [reflexivity|]. split; [reflexivity|]. split; [reflexivity|].
  intros [record H]. vm_compute in H. discriminate.
Qed.




(** ** Seeding *)

Lemma inserted_only_if_absent_refl l : inserted_only_if_absent l l.
Proof.
  exists []. rewrite app_nil_r. repeat split; constructor.
Qed.

Lemma inserted_only_if_absent_trans l1 l2 l3 :
  inserted_only_if_absent l1 l2 -> inserted_only_if_absent l2 l3 ->
  inserted_only_if_absent l1 l3.
Proof.
  intros (a1 & -> & Hn1 & Hf1) (a2 & -> & Hn2 & Hf2).
  exists (a1 ++ a2)%list. split; [now rewrite app_assoc|]. split.
  - rewrite map_app. apply List.NoDup_app; try assumption.
    intros x Hx1 Hx2.
    apply in_map_iff in Hx2 as (p & <- & Hp).
    rewrite List.Forall_forall in Hf2. apply (Hf2 p Hp).
    rewrite map_app. apply in_or_app. now right.
  - apply Forall_app. split; [assumption|].
    apply List.Forall_forall. intros p Hp Hin.
    rewrite List.Forall_forall in Hf2. apply (Hf2 p Hp).
    rewrite map_app. apply in_or_app. now left.
Qed.

Lemma inserted_only_if_absent_NoDup l1 l2 :
  inserted_only_if_absent l1 l2 ->
  List.NoDup (map Product.name l1) -> List.NoDup (map Product.name l2).
Proof.
  intros (a & -> & Hn & Hf) H1.
  rewrite map_app. apply List.NoDup_app; try assumption.
  intros x Hx1 Hx2.
  apply in_map_iff in Hx2 as (p & <- & Hp).
  rewrite List.Forall_forall in Hf. now apply (Hf p Hp).
Qed.

Lemma find_name_none n (l : list Product.t) :
  List.find (product_name_is n) l = None -> ~ In n (map Product.name l).
Proof.
  intros H Hin. apply find_none_Forall in H.
  apply in_map_iff in Hin as (p & <- & Hp).
  rewrite List.Forall_forall in H. specialize (H p Hp).
  unfold product_name_is in H. now rewrite String.eqb_refl in H.
Qed.

Section Seeding.
Variable send_message : string -> Outcome string.
Variable fresh : nat -> Fresh.

Lemma seed_one_inserts_only_if_absent i product_data db :
  inserted_only_if_absent (products db)
    (products (db_after (seed_one send_message fresh i product_data) db)).
Proof.
  unfold db_after, seed_one, generate_product_description, bind, call_llm,
    products_find_one, gets, ret.
  destruct (send_message _) as [description|e]; simpl;
    [|apply inserted_only_if_absent_refl].
  destruct (List.find _ (products db)) as [p|] eqn:Hfind; simpl;
    [apply inserted_only_if_absent_refl|].
  eexists [_]. split; [reflexivity|]. split.
  - simpl. repeat constructor. simpl. tauto.
  - repeat constructor. simpl. now apply find_name_none.
Qed.

Lemma seed_loop_inserts_only_if_absent samples : forall i db,
  inserted_only_if_absent (products db)
    (products (db_after (for_each samples i (seed_one send_message fresh)) db)).
Proof.
  induction samples as [|product_data samples IH]; intros i db.
  - apply inserted_only_if_absent_refl.
  - pose proof (seed_one_inserts_only_if_absent i product_data db) as Hone.
    unfold db_after in *. simpl. unfold bind at 1.
    destruct (seed_one send_message fresh i product_data db) as [db1 [i1|e]];
      simpl in *; [|assumption].
    eapply inserted_only_if_absent_trans; [exact Hone | apply IH].
Qed.

Lemma seed_from_inserts_only_if_absent samples db :
  inserted_only_if_absent (products db)
    (products (db_after (seed_from send_message samples fresh) db)).
Proof.
  pose proof (seed_loop_inserts_only_if_absent samples 0%nat db) as H.
  unfold db_after, seed_from, reraise_500, try_except, bind, ret, raise in *.
  destruct (for_each samples 0%nat (seed_one send_message fresh) db) as [db1 [i1|e]];
    exact H.
Qed.
End Seeding.

(** C4. However often the seed request is repeated, and whatever the
    language model does meanwhile, a catalog without two products of one
    name stays so: every product a seed run adds is inserted where no
    product of its name was present. *)
Theorem seeding_never_duplicates_names runs db :
  List.NoDup (map Product.name (products db)) ->
  List.NoDup (map Product.name (products (seed_repeatedly runs db)))
  /\ inserted_only_if_absent (products db) (products (seed_repeatedly runs db)).
Proof.
  intros Hnodup.
  assert (H : inserted_only_if_absent (products db) (products (seed_repeatedly runs db))).
  { clear Hnodup. revert db.
    induction runs as [|[send_message fresh] runs IH]; intros db.
    - apply inserted_only_if_absent_refl.
    - unfold seed_repeatedly. simpl. fold (seed_repeatedly runs).
      eapply inserted_only_if_absent_trans; [|apply IH].
      apply seed_from_inserts_only_if_absent. }
  split; [|exact H].
  now apply (inserted_only_if_absent_NoDup _ _ H).
Qed.

Lemma seeding_never_duplicates_names_witness :
  List.NoDup (map Product.name
    (products (seed_repeatedly [(ai_says "Great product.", fresh_nth);
                                (ai_says "Even better.", fresh_nth)] empty_db)))
  /\ inserted_only_if_absent (products empty_db)
       (products (seed_repeatedly [(ai_says "Great product.", fresh_nth);
                                   (ai_says "Even better.", fresh_nth)] empty_db)).
Proof.
  apply (seeding_never_duplicates_names
           [(ai_says "Great product.", fresh_nth); (ai_says "Even better.", fresh_nth)]
           empty_db).
  simpl. constructor.
Defined.

(** ** Search *)

Section Search.
Variable send_message : string -> Outcome string.
Variable regex_compile : string -> option (string -> bool).

Lemma get_smart_search_results_run query category db :
  get_smart_search_results send_message query category db =
    match send_message (smart_search_prompt query category) with
    | Return response => (db, Return (map Str.strip (Str.split "," response)))
    | Raise e => (db, Raise e)
    end.
Proof.
  unfold get_smart_search_results, bind, call_llm, ret.
  now destruct (send_message _).
Qed.

Lemma search_query_run category search db :
  Str.truthy search = true ->
  search_query send_message category (Some search) db =
    match send_message (smart_search_prompt search category) with
    | Return response =>
        (db, Return (category_query category
                     ++ [search_clause
                           (search_terms search (map Str.strip (Str.split "," response)))])%list)
    | Raise e => (db, Raise e)
    end.
Proof.
  intros Hs. unfold search_query. rewrite Hs.
  unfold bind. rewrite get_smart_search_results_run.
  now destruct (send_message _).
Qed.

Lemma products_find_keeps_db q n db :
  fst (products_find regex_compile q n db) = db.
Proof.
  unfold products_find.
  destruct (n <? 0)%Z; [reflexivity|].
  now destruct (compile_query regex_compile q).
Qed.
End Search.




(** The search scenario of the spec: one product named Widget, the model
    answering with the empty string. *)
Example search_widget_with_empty_expansion :
  outcome (get_products (ai_says "") LiteralRegex.compile None (Some "Widget") 20) widget_db
  = Return [widget].
Proof. reflexivity. Qed.

(** ** Recommendations *)

Lemma split_length sep s : List.length (Str.split sep s) = S (Str.count sep s).
Proof.
  induction s as [|c s IH]; simpl; [reflexivity|].
  destruct (Ascii.eqb c sep); simpl.
  - now rewrite IH.
  - destruct (Str.split sep s); simpl in *; [discriminate | assumption].
Qed.

Lemma concat_length_bound {A B} (f : A -> list B) (n : nat) (l : list A) :
  Forall (fun x => (List.length (f x) <= n)%nat) l ->
  (List.length (List.concat (map f l)) <= n * List.length l)%nat.
Proof.
  induction 1 as [|x l Hx _ IH]; simpl; [lia|].
  rewrite length_app. lia.
Qed.

Section Recommendations.
Variable send_message : string -> Outcome string.
Variable regex_compile : string -> option (string -> bool).

Lemma get_product_recommendations_run user_id db :
  get_product_recommendations send_message user_id db =
    match send_message (recommendation_prompt (recommendation_context db user_id)) with
    | Return response => (db, Return (categories_of response))
    | Raise e => (db, Raise e)
    end.
Proof.
  unfold get_product_recommendations, bind, cart_find, gets.
  rewrite resolve_each_run.
  unfold call_llm, ret, recommendation_context, user_cart_of.
  now destruct (send_message _).
Qed.

Lemma products_in_category_length db category :
  (List.length (products_in_category regex_compile db category) <= 2)%nat.
Proof.
  unfold products_in_category.
  destruct (regex_compile _); simpl; [|lia].
  rewrite length_firstn. lia.
Qed.

Lemma products_find_category db category :
  regex_compile ("(?i)" ++ category) <> None ->
  products_find regex_compile [Must (FieldRegex FCategory ("(?i)" ++ category))] 2 db
  = (db, Return (products_in_category regex_compile db category)).
Proof.
  intros Hc. unfold products_find, products_in_category. simpl.
  destruct (regex_compile ("(?i)" ++ category)) as [search|]; [|contradiction].
  unfold gets. do 3 f_equal.
  apply filter_ext. intros p. simpl. apply andb_true_r.
Qed.

Lemma recommendation_loop db categories : forall acc,
  Forall (fun c => regex_compile ("(?i)" ++ c) <> None) categories ->
  for_each categories acc (fun acc category =>
    do products <- products_find regex_compile
                     [Must (FieldRegex FCategory ("(?i)" ++ category))] 2;
    ret (acc ++ products)%list) db
  = (db, Return (acc ++ List.concat (map (products_in_category regex_compile db) categories))%list).
Proof.
  induction categories as [|c categories IH]; intros acc Hall; simpl.
  - unfold ret. now rewrite app_nil_r.
  - inversion Hall as [|? ? Hc Hrest]; subst.
    unfold bind at 1. unfold bind at 1.
    rewrite products_find_category by assumption.
    unfold ret at 1. rewrite IH by assumption.
    now rewrite app_assoc.
Qed.
End Recommendations.

(** C5 (as the code has it). When the language model answers, the
    recommended categories are its answer split at the commas, trimmed
    and lower-cased: one more than the answer has commas, in the order
    given, duplicates kept, and nothing holds their number between 3 and
    5.  When the store accepts each [(?i)category] pattern, the
    recommendations are the concatenation, category by category, of the
    first two products whose category field the pattern finds a match
    in; so each category contributes at most 2 products. *)
Theorem recommendations_two_per_category
    send_message regex_compile user_id db response :
  send_message (recommendation_prompt (recommendation_context db user_id))
    = Return response ->
  Forall (fun c => regex_compile ("(?i)" ++ c) <> None) (categories_of response) ->
  run (get_recommendations send_message regex_compile user_id) db
    = (db, Return (List.concat (map (products_in_category regex_compile db)
                             (categories_of response)),
                   categories_of response))
  /\ List.length (categories_of response) = S (Str.count "," response)
  /\ Forall (fun c => (List.length (products_in_category regex_compile db c) <= 2)%nat)
       (categories_of response)
  /\ (List.length (List.concat (map (products_in_category regex_compile db) (categories_of response)))
      <= 2 * List.length (categories_of response))%nat.
Proof.
  intros Hr Hall.
  assert (Hlen : Forall (fun c => (List.length (products_in_category regex_compile db c) <= 2)%nat)
                   (categories_of response)).
  { apply List.Forall_forall. intros c _. apply products_in_category_length. }
  repeat split.
  - unfold run, get_recommendations, reraise_500, try_except.
    rewrite bind_run, get_product_recommendations_run, Hr.
    rewrite bind_run, recommendation_loop by assumption.
    reflexivity.
  - unfold categories_of. rewrite length_map. apply split_length.
  - exact Hlen.
  - now apply concat_length_bound.
Qed.

Lemma recommendations_two_per_category_witness :
  run (get_recommendations (ai_says " Home, ,hOme") LiteralRegex.compile "u1") widget_cart_db
    = (widget_cart_db, Return ([widget; widget; widget], ["home"; ""; "home"]))
  /\ List.length (categories_of " Home, ,hOme") = 3%nat.
Proof.
  pose proof (recommendations_two_per_category
                (ai_says " Home, ,hOme") LiteralRegex.compile "u1" widget_cart_db
                " Home, ,hOme" eq_refl) as H.
  assert (Hall : Forall (fun c => LiteralRegex.compile ("(?i)" ++ c) <> None)
                   (categories_of " Home, ,hOme")).
  { repeat constructor; discriminate. }
  destruct (H Hall) as (Hrun & Hlen & _).
  split; [exact Hrun | exact Hlen].
Defined.

(** C5 as claimed fails: a one-word answer of the model makes a category
    list of length 1. *)
Lemma one_word_answer_gives_one_category :
  outcome (get_recommendations (ai_says "shoes") LiteralRegex.compile "u1") widget_db
  = Return ([], ["shoes"])
  /\ ~ (3 <= List.length ["shoes"] <= 5)%nat.
Proof.
  split; [reflexivity|]. simpl. lia.
Qed.

(** * Further properties of the handlers *)

(** ** Handlers that only read *)

Lemma read_only_ret {A} (a : A) : read_only (ret a).
Proof. intros db. reflexivity. Qed.

Lemma read_only_raise {A} e : read_only (@raise A e).
Proof. intros db. reflexivity. Qed.

Lemma read_only_gets {A} (f : Db -> A) : read_only (gets f).
Proof. intros db. reflexivity. Qed.

Lemma read_only_call_llm send_message prompt : read_only (call_llm send_message prompt).
Proof. intros db. reflexivity. Qed.

Lemma read_only_bind {A B} (m : M A) (k : A -> M B) :
  read_only m -> (forall a, read_only (k a)) -> read_only (bind m k).
Proof.
  intros Hm Hk db. specialize (Hm db). unfold db_after, bind in *.
  destruct (m db) as [db1 [a|e]]; simpl in *; subst db1; [apply Hk | reflexivity].
Qed.

Lemma read_only_try_except {A} (m : M A) (h : Exn -> M A) :
  read_only m -> (forall e, read_only (h e)) -> read_only (try_except m h).
Proof.
  intros Hm Hh db. specialize (Hm db). unfold db_after, try_except in *.
  destruct (m db) as [db1 [a|e]]; simpl in *; subst db1; [reflexivity | apply Hh].
Qed.

Lemma read_only_reraise_500 {A} (m : M A) : read_only m -> read_only (reraise_500 m).
Proof.
  intros Hm. apply read_only_try_except; [assumption|].
  intros e. apply read_only_raise.
Qed.

Lemma read_only_for_each {A B} (body : B -> A -> M B) (l : list A) :
  (forall acc x, read_only (body acc x)) -> forall acc, read_only (for_each l acc body).
Proof.
  intros Hbody. induction l as [|x l IH]; intros acc; simpl.
  - apply read_only_ret.
  - apply read_only_bind; [apply Hbody | assumption].
Qed.

Lemma read_only_products_find regex_compile q n :
  read_only (products_find regex_compile q n).
Proof.
  unfold products_find.
  destruct (n <? 0)%Z; [apply read_only_raise|].
  destruct (compile_query regex_compile q); [apply read_only_gets | apply read_only_raise].
Qed.

Lemma read_only_resolve_each {B} l (render : CartItem.t -> Product.t -> B) :
  read_only (resolve_each l render).
Proof.
  apply read_only_for_each. intros acc item.
  apply read_only_bind; [apply read_only_gets|].
  intros [p|]; apply read_only_ret.
Qed.

Lemma read_only_search_query send_message category search :
  read_only (search_query send_message category search).
Proof.
  unfold search_query.
  destruct search as [s|]; [|apply read_only_ret].
  destruct (Str.truthy s); [|apply read_only_ret].
  apply read_only_bind; [|intros; apply read_only_ret].
  apply read_only_bind; [apply read_only_call_llm | intros; apply read_only_ret].
Qed.

Lemma read_only_get_product_recommendations send_message user_id :
  read_only (get_product_recommendations send_message user_id).
Proof.
  apply read_only_bind; [apply read_only_gets | intros user_cart].
  apply read_only_bind; [apply read_only_resolve_each | intros cart_items].
  apply read_only_bind; [apply read_only_call_llm | intros; apply read_only_ret].
Qed.

(** X1. The five reading routes leave the database exactly as it was,
    whether they return or raise. *)
Theorem reading_routes_keep_database send_message regex_compile :
  (forall category search limit,
     read_only (get_products send_message regex_compile category search limit))
  /\ (forall product_id, read_only (get_product product_id))
  /\ (forall user_id, read_only (get_recommendations send_message regex_compile user_id))
  /\ (forall user_id, read_only (get_cart user_id))
  /\ read_only get_categories.
Proof.
  split; [|split; [|split; [|split]]].
  - intros category search limit. apply read_only_reraise_500.
    apply read_only_bind; [apply read_only_search_query | intros query].
    apply read_only_bind; [apply read_only_products_find | intros; apply read_only_ret].
  - intros product_id. apply read_only_bind; [apply read_only_gets|].
    intros [p|]; [apply read_only_ret | apply read_only_raise].
  - intros user_id. apply read_only_reraise_500.
    apply read_only_bind; [apply read_only_get_product_recommendations | intros cats].
    apply read_only_bind; [|intros; apply read_only_ret].
    apply read_only_for_each. intros acc category.
    apply read_only_bind; [apply read_only_products_find | intros; apply read_only_ret].
  - intros user_id. apply read_only_reraise_500.
    apply read_only_bind; [apply read_only_gets | intros cart_items].
    apply read_only_bind; [apply read_only_resolve_each | intros; apply read_only_ret].
  - apply read_only_bind; [apply read_only_gets | intros; apply read_only_ret].
Qed.

(** ** What a failing handler answers *)

Lemma reraise_500_status {A} (m : M A) db e :
  outcome (reraise_500 m) db = Raise e -> status e = Some 500%Z.
Proof.
  unfold outcome, reraise_500, try_except, raise.
  destruct (m db) as [db1 [a|e1]]; simpl; intros H; [discriminate|].
  now injection H as <-.
Qed.

(** X2. Each of the six routes that end in the catch-all clause fails, if
    it fails, with status 500, whatever was raised inside it. *)
Theorem guarded_routes_fail_with_500 send_message regex_compile db e :
  (forall fresh, outcome (seed_products send_message fresh) db = Raise e ->
                 status e = Some 500%Z)
  /\ (forall category search limit,
        outcome (get_products send_message regex_compile category search limit) db = Raise e ->
        status e = Some 500%Z)
  /\ (forall user_id,
        outcome (get_recommendations send_message regex_compile user_id) db = Raise e ->
        status e = Some 500%Z)
  /\ (forall cart_item fresh,
        outcome (add_to_cart cart_item fresh) db = Raise e -> status e = Some 500%Z)
  /\ (forall user_id, outcome (get_cart user_id) db = Raise e -> status e = Some 500%Z)
  /\ (forall lib message fresh,
        outcome (chat_with_ai send_message lib message fresh) db = Raise e ->
        status e = Some 500%Z).
Proof.
  split; [|split; [|split; [|split; [|split]]]];
    intros; eapply reraise_500_status; eassumption.
Qed.

Lemma guarded_routes_fail_with_500_witness :
  status (HTTPException 500 "404: Product not found") = Some 500%Z
  /\ status (HTTPException 500 "provider unavailable") = Some 500%Z.
Proof.
  pose proof (guarded_routes_fail_with_500 ai_down LiteralRegex.compile widget_db
                (HTTPException 500 "404: Product not found")) as (_ & _ & _ & Hadd & _).
  pose proof (guarded_routes_fail_with_500 ai_down LiteralRegex.compile widget_db
                (HTTPException 500 "provider unavailable")) as (_ & _ & _ & _ & _ & Hchat).
  split.
  - apply (Hadd (CartItemCreate.mk "p-unknown" "u1" 1) fresh_a). reflexivity.
  - apply (Hchat strict_lib chat_body fresh_a). reflexivity.
Defined.

(** ** Fetching a product *)

Lemma find_present {A} (P : A -> bool) (l : list A) x :
  In x l -> P x = true -> exists y, List.find P l = Some y.
Proof.
  intros Hin Hx.
  destruct (List.find P l) as [y|] eqn:E; [eauto|].
  apply find_none_Forall in E. rewrite List.Forall_forall in E.
  specialize (E x Hin). congruence.
Qed.

Lemma find_product_unique (l : list Product.t) p :
  List.NoDup (map Product.id l) -> In p l ->
  List.find (product_id_is (Product.id p)) l = Some p.
Proof.
  induction l as [|x l IH]; simpl; intros Hnodup Hin; [contradiction|].
  inversion Hnodup as [|? ? Hx Hl]; subst.
  destruct Hin as [->|Hin].
  - unfold product_id_is at 1. now rewrite String.eqb_refl.
  - destruct (product_id_is (Product.id p) x) eqn:E.
    + exfalso. apply Hx. apply String.eqb_eq in E. rewrite E. now apply in_map.
    + now apply IH.
Qed.

(** X3. A product that is in the catalog is fetched by its identifier:
    the route returns a catalog product with that identifier, never a
    404, and it is that very product when the catalog's identifiers are
    pairwise distinct. *)
Theorem get_product_fetches_present db p :
  In p (products db) ->
  (exists found,
     run (get_product (Product.id p)) db = (db, Return found)
     /\ In found (products db)
     /\ Product.id found = Product.id p)
  /\ (List.NoDup (map Product.id (products db)) ->
      run (get_product (Product.id p)) db = (db, Return p)).
Proof.
  intros Hin. split.
  - destruct (find_present (product_id_is (Product.id p)) (products db) p Hin)
      as [found Hfound].
    { unfold product_id_is. apply String.eqb_refl. }
    exists found. unfold run, get_product, bind, products_find_one, gets.
    rewrite Hfound. split; [reflexivity|].
    apply find_some in Hfound as [Hf1 Hf2].
    split; [assumption | now apply String.eqb_eq].
  - intros Hnodup. unfold run, get_product, bind, products_find_one, gets.
    now rewrite find_product_unique.
Qed.

Lemma get_product_fetches_present_witness :
  run (get_product "p-1") widget_cart_db = (widget_cart_db, Return widget).
Proof.
  apply (proj2 (get_product_fetches_present widget_cart_db widget (or_introl eq_refl))).
  simpl. repeat constructor. simpl. tauto.
Defined.

(** ** The category list *)

Lemma in_distinct l x : In x (distinct l) <-> In x l.
Proof.
  induction l as [|y l IH]; simpl; [tauto|].
  rewrite filter_In, IH. split.
  - intros [H | [H _]]; auto.
  - intros [H | H]; [now left|].
    destruct (String.eqb x y) eqn:E.
    + left. symmetry. now apply String.eqb_eq.
    + right. now split.
Qed.

Lemma NoDup_filter {A} (P : A -> bool) (l : list A) :
  List.NoDup l -> List.NoDup (List.filter P l).
Proof.
  induction 1 as [|x l Hx Hl IH]; simpl; [constructor|].
  destruct (P x); [|assumption].
  constructor; [|assumption].
  intros H. apply filter_In in H as [H _]. contradiction.
Qed.

Lemma NoDup_distinct l : List.NoDup (distinct l).
Proof.
  induction l as [|x l IH]; simpl; constructor.
  - intros H. apply filter_In in H as [_ H].
    now rewrite String.eqb_refl in H.
  - now apply NoDup_filter.
Qed.

(** X4. The category route always returns, leaves the database as it
    was, and lists without repetition exactly the categories that some
    product of the catalog has. *)
Theorem get_categories_lists_each_category_once db :
  exists categories,
    run get_categories db = (db, Return categories)
    /\ List.NoDup categories
    /\ forall c, In c categories <->
                 exists p, In p (products db) /\ Product.category p = c.
Proof.
  exists (distinct (map Product.category (products db))).
  split; [reflexivity|]. split; [apply NoDup_distinct|].
  intros c. rewrite in_distinct, in_map_iff. split.
  - intros (p & Hc & Hp). eauto.
  - intros (p & Hp & Hc). eauto.
Qed.

(** ** Adding to and removing from the cart *)

Lemma add_to_cart_frame req fr db :
  products (db_after (add_to_cart req fr) db) = products db
  /\ chat_history (db_after (add_to_cart req fr) db) = chat_history db.
Proof.
  unfold db_after.
  destruct (List.find (product_id_is (CartItemCreate.product_id req)) (products db))
    as [p|] eqn:Hp.
  - destruct (List.find (cart_pair_is (CartItemCreate.product_id req)
                           (CartItemCreate.user_id req)) (cart db)) as [e|] eqn:He.
    + rewrite (add_to_cart_existing req fr db p e) by assumption. now split.
    + rewrite (add_to_cart_new req fr db p) by assumption. now split.
  - rewrite add_to_cart_unknown_product by assumption. now split.
Qed.

Lemma db_ext db1 db2 :
  products db1 = products db2 -> cart db1 = cart db2 ->
  chat_history db1 = chat_history db2 -> db1 = db2.
Proof. destruct db1, db2. simpl. now intros -> -> ->. Qed.

(** X5. Deleting an identifier that is in the cart removes the first
    entry that carries it and nothing else: the entries before and after
    it keep their order, catalog and chat history stay, and the caller
    gets the confirmation. *)
Theorem remove_from_cart_deletes_one_entry item_id db e :
  List.find (cart_id_is item_id) (cart db) = Some e ->
  exists l1 l2,
    cart db = (l1 ++ e :: l2)%list
    /\ CartItem.id e = item_id
    /\ Forall (fun x => CartItem.id x <> item_id) l1
    /\ outcome (remove_from_cart item_id) db = Return "Item removed from cart"
    /\ cart (db_after (remove_from_cart item_id) db) = (l1 ++ l2)%list
    /\ products (db_after (remove_from_cart item_id) db) = products db
    /\ chat_history (db_after (remove_from_cart item_id) db) = chat_history db.
Proof.
  intros Hfind.
  destruct (find_split _ _ _ Hfind) as (l1 & l2 & Hcart & Hl1 & He).
  exists l1, l2. split; [assumption|]. split; [now apply String.eqb_eq|]. split.
  - apply List.Forall_forall. intros x Hx.
    rewrite List.Forall_forall in Hl1. specialize (Hl1 x Hx).
    now apply String.eqb_neq.
  - unfold outcome, db_after.
    rewrite (remove_from_cart_present item_id db l1 e l2) by assumption.
    simpl. repeat split.
Qed.

Lemma remove_from_cart_deletes_one_entry_witness :
  exists l1 l2,
    cart widget_cart_db = (l1 ++ CartItem.mk "c-0" "p-gone" "u1" 1 1500 :: l2)%list
    /\ CartItem.id (CartItem.mk "c-0" "p-gone" "u1" 1 1500) = "c-0"
    /\ Forall (fun x => CartItem.id x <> "c-0") l1
    /\ outcome (remove_from_cart "c-0") widget_cart_db = Return "Item removed from cart"
    /\ cart (db_after (remove_from_cart "c-0") widget_cart_db) = (l1 ++ l2)%list
    /\ products (db_after (remove_from_cart "c-0") widget_cart_db)
       = products widget_cart_db
    /\ chat_history (db_after (remove_from_cart "c-0") widget_cart_db)
       = chat_history widget_cart_db.
Proof.
  apply (remove_from_cart_deletes_one_entry "c-0" widget_cart_db
           (CartItem.mk "c-0" "p-gone" "u1" 1 1500)).
  reflexivity.
Defined.

(** After that delete the cart holds the other entry alone. *)
Example remove_dangling_entry_leaves_the_other :
  cart (db_after (remove_from_cart "c-0") widget_cart_db)
  = [CartItem.mk "c-1" "p-1" "u1" 2 2000].
Proof. reflexivity. Qed.

(** X6. Adding a product of the catalog for a pair that has no entry, and
    then deleting the entry by the identifier the add returned, gives
    back the database one started from, provided that identifier was not
    in use in the cart. *)
Theorem add_then_remove_restores_database req fr db p :
  List.find (product_id_is (CartItemCreate.product_id req)) (products db) = Some p ->
  List.find (cart_pair_is (CartItemCreate.product_id req) (CartItemCreate.user_id req))
    (cart db) = None ->
  ~ In (fresh_id fr) (map CartItem.id (cart db)) ->
  exists item,
    outcome (add_to_cart req fr) db = Return item
    /\ run (remove_from_cart (CartItem.id item)) (db_after (add_to_cart req fr) db)
       = (db, Return "Item removed from cart").
Proof.
  intros Hp Hnone Hfresh.
  set (obj := CartItem.mk (fresh_id fr) (CartItemCreate.product_id req)
                (CartItemCreate.user_id req) (CartItemCreate.quantity req) (fresh_time fr)).
  exists obj. unfold outcome, db_after.
  rewrite (add_to_cart_new req fr db p) by assumption. simpl. fold obj.
  split; [reflexivity|]. unfold run.
  rewrite (remove_from_cart_present (CartItem.id obj) _ (cart db) obj []).
  - f_equal. apply db_ext; simpl; try reflexivity. apply app_nil_r.
  - reflexivity.
  - apply List.Forall_forall. intros x Hx. unfold cart_id_is. apply String.eqb_neq.
    intros Heq. apply Hfresh. simpl in Heq. rewrite <- Heq. now apply in_map.
  - apply cart_id_is_refl.
Qed.

Lemma add_then_remove_restores_database_witness :
  exists item,
    outcome (add_to_cart (CartItemCreate.mk "p-1" "u2" 4) fresh_b) widget_cart_db = Return item
    /\ run (remove_from_cart (CartItem.id item))
         (db_after (add_to_cart (CartItemCreate.mk "p-1" "u2" 4) fresh_b) widget_cart_db)
       = (widget_cart_db, Return "Item removed from cart").
Proof.
  apply (add_then_remove_restores_database
           (CartItemCreate.mk "p-1" "u2" 4) fresh_b widget_cart_db widget).
  - reflexivity.
  - reflexivity.
  - simpl. intuition discriminate.
Defined.

Lemma filter_user_update (l1 l2 : list CartItem.t) e q user_id :
  CartItem.user_id e <> user_id ->
  List.filter (cart_user_is user_id) (l1 ++ CartItem.set_quantity q e :: l2)
  = List.filter (cart_user_is user_id) (l1 ++ e :: l2).
Proof.
  intros Hne.
  assert (He : cart_user_is user_id e = false)
    by (unfold cart_user_is; now apply String.eqb_neq).
  assert (He' : cart_user_is user_id (CartItem.set_quantity q e) = false) by exact He.
  rewrite !List.filter_app. cbn [List.filter]. now rewrite He, He'.
Qed.

(** X7. In a cart with pairwise distinct identifiers, an add requested
    for one user does not change what any other user's cart listing
    returns. *)
Theorem add_to_cart_leaves_other_users_listing req fr db user_id :
  List.NoDup (map CartItem.id (cart db)) ->
  user_id <> CartItemCreate.user_id req ->
  outcome (get_cart user_id) (db_after (add_to_cart req fr) db)
  = outcome (get_cart user_id) db.
Proof.
  intros Hnodup Hne.
  destruct (add_to_cart_frame req fr db) as [Hprod _].
  assert (Hcart : List.filter (cart_user_is user_id) (cart (db_after (add_to_cart req fr) db))
                  = List.filter (cart_user_is user_id) (cart db)).
  { destruct (add_to_cart_cases req fr db) as [-> | [(q & e & Hfind & ->) | (_ & ->)]].
    - reflexivity.
    - destruct (find_split _ _ _ Hfind) as (l1 & l2 & Hcart & _ & He).
      rewrite Hcart in Hnodup |- *.
      rewrite update_first_app_skip by (now apply unique_ids_before with (l2 := l2)).
      simpl. rewrite cart_id_is_refl.
      apply filter_user_update.
      unfold cart_pair_is in He. apply andb_prop in He as [_ He].
      apply String.eqb_eq in He. congruence.
    - rewrite List.filter_app. cbn [List.filter].
      assert (E : cart_user_is user_id
                    (CartItem.mk (fresh_id fr) (CartItemCreate.product_id req)
                       (CartItemCreate.user_id req) (CartItemCreate.quantity req)
                       (fresh_time fr)) = false).
      { unfold cart_user_is. simpl. apply String.eqb_neq. congruence. }
      rewrite E. apply app_nil_r. }
  unfold outcome. rewrite !get_cart_run. simpl.
  unfold user_cart_of, resolved. now rewrite Hcart, Hprod.
Qed.

Lemma add_to_cart_leaves_other_users_listing_witness :
  outcome (get_cart "u1")
    (db_after (add_to_cart (CartItemCreate.mk "p-1" "u2" 4) fresh_b) widget_cart_db)
  = outcome (get_cart "u1") widget_cart_db.
Proof.
  apply (add_to_cart_leaves_other_users_listing
           (CartItemCreate.mk "p-1" "u2" 4) fresh_b widget_cart_db "u1").
  - simpl. repeat constructor; simpl; intuition discriminate.
  - discriminate.
Defined.

Lemma add_to_cart_stored req fr db p :
  List.find (product_id_is (CartItemCreate.product_id req)) (products db) = Some p ->
  List.NoDup (map CartItem.id (cart db)) ->
  exists item,
    outcome (add_to_cart req fr) db = Return item
    /\ List.find (cart_pair_is (CartItemCreate.product_id req) (CartItemCreate.user_id req))
         (cart (db_after (add_to_cart req fr) db)) = Some item
    /\ CartItem.product_id item = CartItemCreate.product_id req
    /\ CartItem.user_id item = CartItemCreate.user_id req
    /\ (List.length (cart (db_after (add_to_cart req fr) db))
        <= S (List.length (cart db)))%nat.
Proof.
  intros Hp Hnodup. unfold outcome, db_after.
  destruct (List.find (cart_pair_is (CartItemCreate.product_id req)
                         (CartItemCreate.user_id req)) (cart db)) as [e|] eqn:He.
  - rewrite (add_to_cart_existing req fr db p e) by assumption. simpl.
    eexists. split; [reflexivity|].
    destruct (find_split _ _ _ He) as (l1 & l2 & Hcart & Hl1 & Hpair).
    rewrite Hcart in Hnodup |- *.
    rewrite update_first_app_skip by (now apply unique_ids_before with (l2 := l2)).
    simpl. rewrite cart_id_is_refl.
    unfold cart_pair_is in Hpair. apply andb_prop in Hpair as [Hp1 Hp2].
    apply String.eqb_eq in Hp1, Hp2.
    repeat split; try assumption.
    + rewrite find_app_skip by assumption. simpl.
      rewrite cart_pair_is_set_quantity.
      unfold cart_pair_is. now rewrite Hp1, Hp2, !String.eqb_refl.
    + rewrite !length_app. simpl. lia.
  - rewrite (add_to_cart_new req fr db p) by assumption. simpl.
    eexists. split; [reflexivity|]. repeat split.
    + apply find_none_Forall in He. rewrite find_app_skip by assumption.
      simpl. unfold cart_pair_is. simpl. now rewrite !String.eqb_refl.
    + rewrite length_app. simpl. lia.
Qed.

(** X8. An add for a product of the catalog, into a cart with pairwise
    distinct identifiers, succeeds, and the entry it returns is the one
    the cart then holds for the request's pair; the cart grows by at most
    one entry. *)
Theorem add_to_cart_returns_stored_entry req fr db p :
  List.find (product_id_is (CartItemCreate.product_id req)) (products db) = Some p ->
  List.NoDup (map CartItem.id (cart db)) ->
  exists item,
    outcome (add_to_cart req fr) db = Return item
    /\ List.find (cart_pair_is (CartItemCreate.product_id req) (CartItemCreate.user_id req))
         (cart (db_after (add_to_cart req fr) db)) = Some item
    /\ CartItem.product_id item = CartItemCreate.product_id req
    /\ CartItem.user_id item = CartItemCreate.user_id req
    /\ (List.length (cart (db_after (add_to_cart req fr) db))
        <= S (List.length (cart db)))%nat.
Proof. intros Hp Hnodup. now apply add_to_cart_stored with (p := p). Qed.

Lemma add_to_cart_returns_stored_entry_witness :
  exists item,
    outcome (add_to_cart (CartItemCreate.mk "p-1" "u1" 3) fresh_b) widget_cart_db
    = Return item
    /\ List.find (cart_pair_is "p-1" "u1")
         (cart (db_after (add_to_cart (CartItemCreate.mk "p-1" "u1" 3) fresh_b)
                  widget_cart_db)) = Some item
    /\ CartItem.product_id item = "p-1"
    /\ CartItem.user_id item = "u1"
    /\ (List.length (cart (db_after (add_to_cart (CartItemCreate.mk "p-1" "u1" 3) fresh_b)
                             widget_cart_db))
        <= S (List.length (cart widget_cart_db)))%nat.
Proof.
  apply (add_to_cart_returns_stored_entry
           (CartItemCreate.mk "p-1" "u1" 3) fresh_b widget_cart_db widget).
  - reflexivity.
  - simpl. repeat constructor; simpl; intuition discriminate.
Defined.

Lemma remove_from_cart_cases item_id db :
  cart (db_after (remove_from_cart item_id) db) = cart db
  \/ exists l1 e l2,
       cart db = (l1 ++ e :: l2)%list
       /\ cart (db_after (remove_from_cart item_id) db) = (l1 ++ l2)%list.
Proof.
  unfold db_after.
  destruct (List.find (cart_id_is item_id) (cart db)) as [e|] eqn:Hfind.
  - right. destruct (find_split _ _ _ Hfind) as (l1 & l2 & Hcart & Hl1 & He).
    exists l1, e, l2. split; [assumption|].
    now rewrite (remove_from_cart_present item_id db l1 e l2).
  - left. now rewrite remove_from_cart_absent.
Qed.

(** X9. The two cart writers keep the cart well formed: if identifiers
    are pairwise distinct and no pair (product, user) has two entries,
    this still holds after an add whose new identifier is not in use,
    and after any delete. *)
Theorem cart_writers_keep_entries_distinct db :
  List.NoDup (map CartItem.id (cart db)) ->
  List.NoDup (map cart_pair (cart db)) ->
  (forall req fr,
     ~ In (fresh_id fr) (map CartItem.id (cart db)) ->
     List.NoDup (map CartItem.id (cart (db_after (add_to_cart req fr) db)))
     /\ List.NoDup (map cart_pair (cart (db_after (add_to_cart req fr) db))))
  /\ (forall item_id,
        List.NoDup (map CartItem.id (cart (db_after (remove_from_cart item_id) db)))
        /\ List.NoDup (map cart_pair (cart (db_after (remove_from_cart item_id) db)))).
Proof.
  intros Hids Hpairs. split.
  - intros req fr Hfresh. split.
    + now apply add_to_cart_keeps_ids_distinct.
    + now apply add_to_cart_keeps_pairs_distinct.
  - intros item_id.
    destruct (remove_from_cart_cases item_id db) as [-> | (l1 & e & l2 & Hcart & ->)].
    + now split.
    + rewrite Hcart, map_app in Hids, Hpairs. simpl in Hids, Hpairs.
      rewrite !map_app. split; eapply NoDup_remove_1; eassumption.
Qed.

Lemma cart_writers_keep_entries_distinct_witness :
  List.NoDup (map cart_pair
    (cart (db_after (add_to_cart (CartItemCreate.mk "p-1" "u1" 3) fresh_b) widget_cart_db)))
  /\ List.NoDup (map CartItem.id
       (cart (db_after (remove_from_cart "c-1") widget_cart_db))).
Proof.
  assert (Hids : List.NoDup (map CartItem.id (cart widget_cart_db))).
  { simpl. repeat constructor; simpl; intuition discriminate. }
  assert (Hpairs : List.NoDup (map cart_pair (cart widget_cart_db))).
  { simpl. repeat constructor; simpl; intuition discriminate. }
  destruct (cart_writers_keep_entries_distinct widget_cart_db Hids Hpairs) as [Hadd Hdel].
  split.
  - apply (Hadd (CartItemCreate.mk "p-1" "u1" 3) fresh_b).
    simpl. intuition discriminate.
  - apply (Hdel "c-1").
Defined.

(** ** More on seeding *)

Section SeedRuns.
Variable send_message : string -> Outcome string.
Variable fresh : nat -> Fresh.

Lemma seed_one_run i product_data db :
  seed_one send_message fresh i product_data db =
    match send_message (description_prompt (SampleProduct.name product_data)
                          (SampleProduct.category product_data)) with
    | Return description =>
        (match List.find (product_name_is (SampleProduct.name product_data)) (products db) with
         | Some _ => db
         | None =>
             with_products
               (fun l => l ++ [sample_product fresh i product_data description])%list db
         end, Return (S i))
    | Raise e => (db, Raise e)
    end.
Proof.
  unfold seed_one, generate_product_description, bind, call_llm, products_find_one,
    products_insert_one, gets, modify, ret, description_prompt.
  destruct (send_message _) as [description|e]; [|reflexivity].
  simpl. now destruct (List.find _ (products db)).
Qed.

Lemma for_each_app {A B} (body : B -> A -> M B) (l1 l2 : list A) : forall acc db,
  for_each (l1 ++ l2) acc body db =
    match for_each l1 acc body db with
    | (db1, Return acc1) => for_each l2 acc1 body db1
    | (db1, Raise e) => (db1, Raise e)
    end.
Proof.
  induction l1 as [|x l1 IH]; intros acc db; simpl; [reflexivity|].
  rewrite !bind_run.
  destruct (body acc x db) as [db1 [acc1|e]]; [apply IH | reflexivity].
Qed.

Lemma seed_from_run samples db :
  seed_from send_message samples fresh db =
    match for_each samples 0%nat (seed_one send_message fresh) db with
    | (db1, Return _) => (db1, Return "Products seeded successfully")
    | (db1, Raise e) => (db1, Raise (HTTPException 500 (str e)))
    end.
Proof.
  unfold seed_from, reraise_500, try_except. rewrite bind_run.
  now destruct (for_each samples 0%nat (seed_one send_message fresh) db) as [db1 [i|e]].
Qed.

(** The counter of the loop is the number of samples gone through. *)
Lemma seed_loop_counter samples : forall i db db1 n,
  for_each samples i (seed_one send_message fresh) db = (db1, Return n) ->
  n = (i + List.length samples)%nat.
Proof.
  induction samples as [|s samples IH]; intros i db db1 n; simpl.
  - unfold ret. intros H. injection H as _ <-. lia.
  - rewrite bind_run, seed_one_run.
    destruct (send_message _) as [d|e]; [|discriminate].
    intros H. apply IH in H. lia.
Qed.

(** What a seed run changes: it appends at most one product per sample
    and touches neither cart nor chat history. *)
Lemma seed_loop_appends samples : forall i db,
  exists added,
    products (db_after (for_each samples i (seed_one send_message fresh)) db)
      = (products db ++ added)%list
    /\ (List.length added <= List.length samples)%nat
    /\ cart (db_after (for_each samples i (seed_one send_message fresh)) db) = cart db
    /\ chat_history (db_after (for_each samples i (seed_one send_message fresh)) db)
       = chat_history db.
Proof.
  induction samples as [|s samples IH]; intros i db.
  - exists []. simpl. rewrite app_nil_r. repeat split; lia.
  - unfold db_after in *. simpl. rewrite bind_run, seed_one_run.
    destruct (send_message _) as [d|e].
    + destruct (List.find _ (products db)) as [p|].
      * destruct (IH (S i) db) as (added & H1 & H2 & H3 & H4).
        exists added. repeat split; try assumption. lia.
      * destruct (IH (S i) (with_products
                   (fun l => l ++ [sample_product fresh i s d])%list db))
          as (added & H1 & H2 & H3 & H4).
        exists (sample_product fresh i s d :: added).
        simpl in *. rewrite H1, <- app_assoc. repeat split; try assumption. lia.
    + exists []. simpl. rewrite app_nil_r. repeat split; lia.
Qed.

(** After a loop that ran to its end, every sample's name is in the
    catalog. *)
Lemma seed_loop_installs_names samples : forall i db db1 n,
  for_each samples i (seed_one send_message fresh) db = (db1, Return n) ->
  forall s, In s samples -> In (SampleProduct.name s) (map Product.name (products db1)).
Proof.
  induction samples as [|s0 samples IH]; intros i db db1 n Hrun s Hin;
    [contradiction|].
  simpl in Hrun. rewrite bind_run, seed_one_run in Hrun.
  destruct (send_message _) as [d|e]; [|discriminate].
  destruct Hin as [<-|Hin]; [|now apply (IH _ _ _ _ Hrun)].
  pose proof (seed_loop_inserts_only_if_absent send_message fresh samples (S i)) as Hext.
  match type of Hrun with for_each _ _ _ ?db' = _ =>
    specialize (Hext db'); unfold db_after in Hext; rewrite Hrun in Hext;
    assert (Hs0 : In (SampleProduct.name s0) (map Product.name (products db')))
  end.
  { destruct (List.find _ (products db)) as [p|] eqn:Hfind.
    - apply find_some in Hfind as [Hp Hname].
      apply String.eqb_eq in Hname. rewrite <- Hname. now apply in_map.
    - simpl. rewrite map_app. apply in_or_app. right. now left. }
  destruct Hext as (added & Hadded & _). simpl in Hadded. rewrite Hadded, map_app.
  apply in_or_app. now left.
Qed.
End SeedRuns.

(** On a catalog that has all the samples' names, a loop changes
    nothing, whatever the model does. *)
Lemma seed_loop_on_seeded_catalog send_message fresh samples : forall i db,
  (forall s, In s samples -> In (SampleProduct.name s) (map Product.name (products db))) ->
  db_after (for_each samples i (seed_one send_message fresh)) db = db.
Proof.
  induction samples as [|s0 samples IH]; intros i db Hall; [reflexivity|].
  unfold db_after in *. simpl. rewrite bind_run, seed_one_run.
  destruct (send_message _) as [d|e]; [|reflexivity].
  assert (Hin : In (SampleProduct.name s0) (map Product.name (products db)))
    by (apply Hall; now left).
  apply in_map_iff in Hin as (p & Hname & Hp).
  destruct (find_present (product_name_is (SampleProduct.name s0)) (products db) p Hp)
    as [found Hfound].
  { unfold product_name_is. now apply String.eqb_eq. }
  rewrite Hfound. apply IH. intros s Hs. apply Hall. now right.
Qed.

(** X10. Seeding is idempotent: once a seed run has returned, any later
    seed run, with whatever language model and drawn values, leaves the
    database exactly as that run left it. *)
Theorem seeding_again_changes_nothing send_message1 fresh1 send_message2 fresh2 db msg :
  outcome (seed_products send_message1 fresh1) db = Return msg ->
  db_after (seed_products send_message2 fresh2)
    (db_after (seed_products send_message1 fresh1) db)
  = db_after (seed_products send_message1 fresh1) db.
Proof.
  unfold outcome, db_after, seed_products. rewrite seed_from_run.
  destruct (for_each SAMPLE_PRODUCTS 0%nat (seed_one send_message1 fresh1) db)
    as [db1 [n|e]] eqn:Hrun; simpl; [|discriminate].
  intros _. rewrite seed_from_run.
  pose proof (seed_loop_on_seeded_catalog send_message2 fresh2 SAMPLE_PRODUCTS 0%nat db1
                (seed_loop_installs_names send_message1 fresh1 _ _ _ _ _ Hrun)) as Hsame.
  unfold db_after in Hsame.
  destruct (for_each SAMPLE_PRODUCTS 0%nat (seed_one send_message2 fresh2) db1)
    as [db2 [n2|e2]]; simpl in *; assumption.
Qed.

Lemma seeding_again_changes_nothing_witness :
  db_after (seed_products ai_down fresh_nth)
    (db_after (seed_products (ai_says "Great product.") fresh_nth) widget_db)
  = db_after (seed_products (ai_says "Great product.") fresh_nth) widget_db.
Proof.
  apply (seeding_again_changes_nothing (ai_says "Great product.") fresh_nth
           ai_down fresh_nth widget_db "Products seeded successfully").
  reflexivity.
Defined.

(** X11. A seed run only appends to the catalog: the products that were
    there stay as they were and in place, at most eight are added, and
    cart and chat history are not touched, whether the run returns or
    fails. *)
Theorem seeding_only_appends_products send_message fresh db :
  exists added,
    products (db_after (seed_products send_message fresh) db) = (products db ++ added)%list
    /\ (List.length added <= 8)%nat
    /\ cart (db_after (seed_products send_message fresh) db) = cart db
    /\ chat_history (db_after (seed_products send_message fresh) db) = chat_history db.
Proof.
  destruct (seed_loop_appends send_message fresh SAMPLE_PRODUCTS 0%nat db)
    as (added & H1 & H2 & H3 & H4).
  exists added. unfold db_after, seed_products in *. rewrite seed_from_run.
  destruct (for_each SAMPLE_PRODUCTS 0%nat (seed_one send_message fresh) db)
    as [db1 [n|e]]; simpl in *; repeat split; assumption.
Qed.

Lemma with_products_app db (l1 l2 : list Product.t) :
  with_products (fun l => l ++ l2)%list (with_products (fun l => l ++ l1)%list db)
  = with_products (fun l => l ++ (l1 ++ l2))%list db.
Proof. apply db_ext; simpl; try reflexivity. now rewrite app_assoc. Qed.

Lemma with_products_nil db : with_products (fun l => l ++ [])%list db = db.
Proof. apply db_ext; simpl; try reflexivity. apply app_nil_r. Qed.

Lemma seeded_products_names send_message fresh samples : forall i,
  map Product.name (seeded_products send_message fresh i samples)
  = map SampleProduct.name samples.
Proof.
  induction samples as [|s samples IH]; intros i; simpl; [reflexivity|].
  now rewrite IH.
Qed.

Lemma seeded_products_in_stock send_message fresh samples : forall i,
  Forall (fun p => Product.in_stock p = true) (seeded_products send_message fresh i samples).
Proof.
  induction samples as [|s samples IH]; intros i; simpl; constructor;
    [reflexivity | apply IH].
Qed.

(** A loop over samples with pairwise distinct names, none of them in
    the catalog, with a model that answers every time, inserts them all. *)
Lemma seed_loop_on_new_names send_message fresh samples : forall i db,
  List.NoDup (map SampleProduct.name samples) ->
  (forall s, In s samples -> ~ In (SampleProduct.name s) (map Product.name (products db))) ->
  (forall s, In s samples ->
     exists d, send_message (description_prompt (SampleProduct.name s)
                               (SampleProduct.category s)) = Return d) ->
  for_each samples i (seed_one send_message fresh) db
  = (with_products (fun l => l ++ seeded_products send_message fresh i samples)%list db,
     Return (i + List.length samples)%nat).
Proof.
  induction samples as [|s0 samples IH]; intros i db Hnodup Hnew Hai; simpl.
  - unfold ret. now rewrite with_products_nil, Nat.add_0_r.
  - inversion Hnodup as [|? ? Hs0 Hrest]; subst.
    rewrite bind_run, seed_one_run.
    unfold description_of.
    destruct (Hai s0 (or_introl eq_refl)) as [d Hd]. rewrite Hd.
    destruct (List.find (product_name_is (SampleProduct.name s0)) (products db))
      as [p|] eqn:Hfind.
    { exfalso. apply (Hnew s0 (or_introl eq_refl)).
      apply find_some in Hfind as [Hp Hname]. apply String.eqb_eq in Hname.
      rewrite <- Hname. now apply in_map. }
    rewrite IH.
    + rewrite with_products_app. simpl. do 2 f_equal. lia.
    + assumption.
    + intros s Hs. simpl. rewrite map_app. intros Hin.
      apply in_app_or in Hin as [Hin | [Heq | []]].
      * now apply (Hnew s (or_intror Hs)).
      * apply Hs0. simpl in Heq. rewrite Heq. now apply in_map.
    + intros s Hs. apply Hai. now right.
Qed.

Lemma sample_names_distinct : List.NoDup (map SampleProduct.name SAMPLE_PRODUCTS).
Proof.
  simpl. repeat constructor; simpl; intuition discriminate.
Qed.

(** X12. On a catalog that has none of the sample names, with a language
    model that answers for every sample, a seed run returns and appends
    the eight samples in their order, each in stock and described as the
    model answered; cart and chat history stay. *)
Theorem seeding_installs_all_samples send_message fresh db :
  (forall s, In s SAMPLE_PRODUCTS ->
     ~ In (SampleProduct.name s) (map Product.name (products db))) ->
  (forall s, In s SAMPLE_PRODUCTS ->
     exists d, send_message (description_prompt (SampleProduct.name s)
                               (SampleProduct.category s)) = Return d) ->
  outcome (seed_products send_message fresh) db = Return "Products seeded successfully"
  /\ products (db_after (seed_products send_message fresh) db)
     = (products db ++ seeded_products send_message fresh 0 SAMPLE_PRODUCTS)%list
  /\ cart (db_after (seed_products send_message fresh) db) = cart db
  /\ chat_history (db_after (seed_products send_message fresh) db) = chat_history db
  /\ List.length (seeded_products send_message fresh 0 SAMPLE_PRODUCTS) = 8%nat
  /\ map Product.name (seeded_products send_message fresh 0 SAMPLE_PRODUCTS)
     = map SampleProduct.name SAMPLE_PRODUCTS
  /\ map Product.description (seeded_products send_message fresh 0 SAMPLE_PRODUCTS)
     = map (description_of send_message) SAMPLE_PRODUCTS
  /\ Forall (fun p => Product.in_stock p = true)
       (seeded_products send_message fresh 0 SAMPLE_PRODUCTS).
Proof.
  intros Hnew Hai.
  unfold outcome, db_after, seed_products. rewrite seed_from_run.
  rewrite (seed_loop_on_new_names send_message fresh SAMPLE_PRODUCTS 0%nat db
             sample_names_distinct Hnew Hai).
  simpl fst. simpl snd.
  split; [reflexivity|]. split; [reflexivity|]. split; [reflexivity|].
  split; [reflexivity|]. split; [reflexivity|].
  split; [apply seeded_products_names|].
  split; [reflexivity | apply seeded_products_in_stock].
Qed.

Lemma seeding_installs_all_samples_witness :
  outcome (seed_products (ai_says "Great product.") fresh_nth) widget_db
  = Return "Products seeded successfully"
  /\ map Product.name
       (products (db_after (seed_products (ai_says "Great product.") fresh_nth) widget_db))
     = "Widget" :: map SampleProduct.name SAMPLE_PRODUCTS
  /\ List.length
       (products (db_after (seed_products (ai_says "Great product.") fresh_nth) widget_db))
     = 9%nat.
Proof.
  assert (Hnew : forall s, In s SAMPLE_PRODUCTS ->
            ~ In (SampleProduct.name s) (map Product.name (products widget_db))).
  { intros s Hs. simpl in Hs.
    repeat (destruct Hs as [<-|Hs]; [simpl; intuition discriminate|]).
    contradiction. }
  assert (Hai : forall s, In s SAMPLE_PRODUCTS ->
            exists d, ai_says "Great product."
                        (description_prompt (SampleProduct.name s)
                           (SampleProduct.category s)) = Return d).
  { intros s _. now exists "Great product.". }
  destruct (seeding_installs_all_samples (ai_says "Great product.") fresh_nth widget_db
              Hnew Hai) as (Hout & Hprod & _ & _ & Hlen & Hnames & _).
  split; [exact Hout|]. rewrite Hprod. split.
  - rewrite map_app, Hnames. reflexivity.
  - rewrite length_app, Hlen. reflexivity.
Defined.

(** X13. There is no rollback in a seed run: when the model fails on one
    sample after answering for those before it, the run ends in a 500
    with the failure's text, and the database is the one the earlier
    samples alone would have produced. *)
Theorem seeding_failure_keeps_earlier_products send_message fresh db l1 s l2 e msg :
  SAMPLE_PRODUCTS = (l1 ++ s :: l2)%list ->
  outcome (seed_from send_message l1 fresh) db = Return msg ->
  send_message (description_prompt (SampleProduct.name s) (SampleProduct.category s))
    = Raise e ->
  run (seed_products send_message fresh) db
  = (db_after (seed_from send_message l1 fresh) db, Raise (HTTPException 500 (str e))).
Proof.
  intros Hsplit Hl1 Hs.
  unfold run, seed_products, outcome, db_after in *.
  rewrite Hsplit, !seed_from_run in *. rewrite for_each_app.
  destruct (for_each l1 0%nat (seed_one send_message fresh) db) as [db1 [n|e1]];
    simpl in *; [|discriminate].
  rewrite bind_run, seed_one_run, Hs. reflexivity.
Qed.

Lemma seeding_failure_keeps_earlier_products_witness :
  run (seed_products (ai_fails_on "Smart Laptop Pro") fresh_nth) empty_db
  = (db_after (seed_from (ai_fails_on "Smart Laptop Pro") (firstn 1 SAMPLE_PRODUCTS)
                 fresh_nth) empty_db,
     Raise (HTTPException 500 "provider unavailable"))
  /\ map Product.name
       (products (db_after (seed_from (ai_fails_on "Smart Laptop Pro")
                              (firstn 1 SAMPLE_PRODUCTS) fresh_nth) empty_db))
     = ["Wireless Noise-Cancelling Headphones"].
Proof.
  split; [|reflexivity].
  apply (seeding_failure_keeps_earlier_products
           (ai_fails_on "Smart Laptop Pro") fresh_nth empty_db
           (firstn 1 SAMPLE_PRODUCTS)
           (nth 1 SAMPLE_PRODUCTS (SampleProduct.mk "" 0 "" "" []))
           (skipn 2 SAMPLE_PRODUCTS)
           (UpstreamError "provider unavailable")
           "Products seeded successfully").
  - reflexivity.
  - reflexivity.
  - reflexivity.
Defined.

(** ** More on listing and searching products *)

Lemma filter_firstn_length {A} (P : A -> bool) (l : list A) n :
  (List.length (firstn n (List.filter P l)) <= n)%nat.
Proof. rewrite length_firstn. lia. Qed.

Section Listing.
Variable send_message : string -> Outcome string.
Variable regex_compile : string -> option (string -> bool).

Lemma compile_category_query category rest matches :
  compile_query regex_compile (category_query category ++ rest)%list = Some matches ->
  exists g, compile_query regex_compile rest = Some g
            /\ forall p, matches p = in_category category p && g p.
Proof.
  unfold category_query, in_category.
  destruct category as [c|]; [destruct (Str.truthy c)|]; simpl.
  - destruct (compile_query regex_compile rest) as [g|]; [|discriminate].
    intros H. injection H as <-. eauto.
  - intros H. eauto.
  - intros H. eauto.
Qed.

Lemma compile_category_only category :
  exists matches,
    compile_query regex_compile (category_query category) = Some matches
    /\ forall p, matches p = in_category category p.
Proof.
  unfold category_query, in_category.
  destruct category as [c|]; [destruct (Str.truthy c)|]; simpl; eexists; split;
    try reflexivity; intros p; simpl; try reflexivity.
  apply andb_true_r.
Qed.

(** What a returning [get_products] returns. *)
Lemma get_products_returns category search limit db found :
  outcome (get_products send_message regex_compile category search limit) db = Return found ->
  exists matches,
    found = firstn (Z.to_nat limit) (List.filter matches (products db))
    /\ forall p, matches p = true -> in_category category p = true.
Proof.
  unfold outcome, get_products, reraise_500, try_except. rewrite bind_run.
  pose proof (read_only_search_query send_message category search db) as Hro.
  unfold db_after in Hro.
  destruct (search_query send_message category search db) as [db1 [query|e]] eqn:Hq;
    simpl in Hro; subst db1; [|discriminate].
  rewrite bind_run. unfold products_find.
  destruct (limit <? 0)%Z; [discriminate|].
  destruct (compile_query regex_compile query) as [matches|] eqn:Hc; [|discriminate].
  simpl. intros H. injection H as <-.
  exists matches. split; [reflexivity|].
  assert (Hshape : exists rest, query = (category_query category ++ rest)%list).
  { unfold search_query in Hq.
    destruct search as [s|].
    - destruct (Str.truthy s).
      + rewrite bind_run in Hq.
        destruct (get_smart_search_results send_message s category db) as [db2 [kw|e]];
          [|discriminate].
        unfold ret in Hq. injection Hq as _ <-. eauto.
      + unfold ret in Hq. injection Hq as <-. exists []. now rewrite app_nil_r.
    - unfold ret in Hq. injection Hq as <-. exists []. now rewrite app_nil_r. }
  destruct Hshape as [rest ->].
  apply compile_category_query in Hc as (g & _ & Hm).
  intros p Hp. rewrite Hm in Hp. now apply andb_prop in Hp as [Hp _].
Qed.
Lemma compile_search_query category terms name_search :
  regex_compile (search_regex terms) = Some name_search ->
  exists matches,
    compile_query regex_compile (category_query category ++ [search_clause terms])%list
      = Some matches
    /\ forall p, matches p =
         in_category category p
         && (name_search (Product.name p)
             || name_search (Product.description p)
             || existsb (fun t => existsb (String.eqb t) (map Str.lower terms))
                  (Product.tags p)).
Proof.
  intros Hre. unfold search_regex in Hre.
  unfold category_query, in_category, search_clause.
  destruct category as [c|]; [destruct (Str.truthy c)|];
    cbn [app compile_query compile_clause compile_any compile_cond field];
    rewrite Hre; eexists; (split; [reflexivity|]); intros p; cbn beta;
    rewrite ?orb_false_r, ?andb_true_r, ?orb_assoc; reflexivity.
Qed.
End Listing.

(** X14. Without a search term (none, or the empty string) the product
    listing consults neither the language model nor the pattern engine:
    for a non-negative limit it returns the first [limit] products of the
    catalog, in catalog order, that pass the category test. *)
Theorem get_products_without_search send_message regex_compile category search limit db :
  search = None \/ search = Some "" ->
  (0 <= limit)%Z ->
  run (get_products send_message regex_compile category search limit) db
  = (db, Return (firstn (Z.to_nat limit)
                   (List.filter (in_category category) (products db)))).
Proof.
  intros Hsearch Hlimit.
  assert (Hq : search_query send_message category search db
               = (db, Return (category_query category))).
  { destruct Hsearch as [-> | ->]; reflexivity. }
  unfold run, get_products, reraise_500, try_except.
  rewrite bind_run, Hq, bind_run. unfold products_find.
  assert (Hl : (limit <? 0)%Z = false) by lia. rewrite Hl.
  destruct (compile_category_only regex_compile category) as (matches & -> & Hm).
  simpl. do 3 f_equal. apply filter_ext. exact Hm.
Qed.

Lemma get_products_without_search_witness :
  run (get_products ai_down LiteralRegex.compile (Some "home") None 20) widget_db
  = (widget_db, Return [widget]).
Proof.
  apply (get_products_without_search ai_down LiteralRegex.compile (Some "home") None 20
           widget_db).
  - now left.
  - lia.
Defined.

(** X15. Whatever the search, a product listing that returns holds at
    most [limit] products, each of them a product of the catalog that
    passes the category test. *)
Theorem get_products_respects_limit_and_category
    send_message regex_compile category search limit db found :
  outcome (get_products send_message regex_compile category search limit) db
    = Return found ->
  (List.length found <= Z.to_nat limit)%nat
  /\ forall p, In p found -> In p (products db) /\ in_category category p = true.
Proof.
  intros H.
  apply get_products_returns in H as (matches & -> & Hm). split.
  - apply filter_firstn_length.
  - intros p Hp. apply In_firstn in Hp. apply filter_In in Hp as [Hin Hmatch].
    split; [assumption | now apply Hm].
Qed.

Lemma get_products_respects_limit_and_category_witness :
  (List.length [widget] <= Z.to_nat 20)%nat
  /\ forall p, In p [widget] ->
       In p (products widget_db) /\ in_category (Some "home") p = true.
Proof.
  apply (get_products_respects_limit_and_category
           (ai_says "gizmo, GADGET ") LiteralRegex.compile
           (Some "home") (Some "zzz") 20 widget_db [widget]).
  reflexivity.
Defined.

(** X16. Matching by tag folds the case of the query only: when the model
    answers, the store accepts the pattern and the catalog is no longer
    than the limit, every product that passes the category test and has
    the lower-cased raw query among its tags is in the result. *)
Theorem get_products_finds_by_lowercased_tag
    send_message regex_compile category search limit db response name_search p :
  Str.truthy search = true ->
  send_message (smart_search_prompt search category) = Return response ->
  regex_compile
    (search_regex (search_terms search (map Str.strip (Str.split "," response))))
    = Some name_search ->
  (Z.of_nat (List.length (products db)) <= limit)%Z ->
  In p (products db) ->
  in_category category p = true ->
  In (Str.lower search) (Product.tags p) ->
  exists found,
    run (get_products send_message regex_compile category (Some search) limit) db
    = (db, Return found)
    /\ In p found.
Proof.
  intros Hs Hr Hre Hlimit Hin Hcat Htag.
  unfold run, get_products, reraise_500, try_except.
  rewrite bind_run, search_query_run, Hr by assumption.
  rewrite bind_run. unfold products_find.
  assert (Hl : (limit <? 0)%Z = false) by lia. rewrite Hl.
  destruct (compile_search_query regex_compile category _ _ Hre) as (matches & -> & Hm).
  simpl. eexists. split; [reflexivity|].
  rewrite firstn_all2.
  - apply filter_In. split; [assumption|].
    rewrite Hm, Hcat. cbn [andb].
    assert (Ht : existsb
                   (fun t => existsb (String.eqb t)
                      (map Str.lower
                         (search_terms search (map Str.strip (Str.split "," response)))))
                   (Product.tags p) = true).
    { apply existsb_exists. exists (Str.lower search). split; [assumption|].
      apply existsb_exists. exists (Str.lower search). split; [now left|].
      apply String.eqb_refl. }
    rewrite Ht. apply orb_true_r.
  - pose proof (filter_length_le matches (products db)). lia.
Qed.

Lemma get_products_finds_by_lowercased_tag_witness :
  exists found,
    run (get_products (ai_says "tools") LiteralRegex.compile None (Some "GADGET") 20)
      widget_db
    = (widget_db, Return found)
    /\ In widget found.
Proof.
  eapply (get_products_finds_by_lowercased_tag
            (ai_says "tools") LiteralRegex.compile None "GADGET" 20 widget_db "tools"
            _ widget).
  - reflexivity.
  - reflexivity.
  - reflexivity.
  - simpl. lia.
  - now left.
  - reflexivity.
  - now left.
Defined.

(** ** Parsing the model's answers *)

Lemma rstrip_cons c s :
  Str.rstrip (String c s) =
    match Str.rstrip s with
    | EmptyString => if Str.is_space c then EmptyString else String c EmptyString
    | r => String c r
    end.
Proof. reflexivity. Qed.

Lemma rstrip_idempotent s : Str.rstrip (Str.rstrip s) = Str.rstrip s.
Proof.
  induction s as [|c s IH]; [reflexivity|].
  rewrite (rstrip_cons c s).
  destruct (Str.rstrip s) as [|d r] eqn:E.
  - destruct (Str.is_space c) eqn:Hc; [reflexivity|].
    rewrite rstrip_cons. simpl. now rewrite Hc.
  - rewrite rstrip_cons, IH. reflexivity.
Qed.

(** A string that does not begin with white space. *)
Lemma lstrip_fixed s :
  match s with String c _ => Str.is_space c = false | EmptyString => True end ->
  Str.lstrip s = s.
Proof. destruct s as [|c s]; simpl; [reflexivity | now intros ->]. Qed.

Lemma lstrip_no_lead s :
  match Str.lstrip s with String c _ => Str.is_space c = false | EmptyString => True end.
Proof.
  induction s as [|c s IH]; simpl; [exact I|].
  destruct (Str.is_space c) eqn:Hc; [exact IH | exact Hc].
Qed.

Lemma rstrip_no_lead s :
  match s with String c _ => Str.is_space c = false | EmptyString => True end ->
  match Str.rstrip s with String c _ => Str.is_space c = false | EmptyString => True end.
Proof.
  destruct s as [|c s]; simpl; [auto|].
  intros Hc. destruct (Str.rstrip s); [now rewrite Hc | assumption].
Qed.

Lemma strip_idempotent s : Str.strip (Str.strip s) = Str.strip s.
Proof.
  unfold Str.strip.
  rewrite (lstrip_fixed (Str.rstrip (Str.lstrip s))).
  - apply rstrip_idempotent.
  - apply rstrip_no_lead, lstrip_no_lead.
Qed.

Lemma lower_char_idempotent c : Str.lower_char (Str.lower_char c) = Str.lower_char c.
Proof. destruct c as [[] [] [] [] [] [] [] []]; reflexivity. Qed.

Lemma is_space_lower_char c : Str.is_space (Str.lower_char c) = Str.is_space c.
Proof. destruct c as [[] [] [] [] [] [] [] []]; reflexivity. Qed.

Lemma lower_idempotent s : Str.lower (Str.lower s) = Str.lower s.
Proof.
  induction s as [|c s IH]; simpl; [reflexivity|].
  now rewrite lower_char_idempotent, IH.
Qed.

Lemma lstrip_lower s : Str.lstrip (Str.lower s) = Str.lower (Str.lstrip s).
Proof.
  induction s as [|c s IH]; simpl; [reflexivity|].
  rewrite is_space_lower_char. now destruct (Str.is_space c).
Qed.

Lemma rstrip_lower s : Str.rstrip (Str.lower s) = Str.lower (Str.rstrip s).
Proof.
  induction s as [|c s IH]; simpl; [reflexivity|].
  rewrite IH, is_space_lower_char.
  destruct (Str.rstrip s); simpl; [now destruct (Str.is_space c) | reflexivity].
Qed.

Lemma strip_lower s : Str.strip (Str.lower s) = Str.lower (Str.strip s).
Proof. unfold Str.strip. now rewrite lstrip_lower, rstrip_lower. Qed.

Lemma split_nonempty sep s : Str.split sep s <> [].
Proof.
  intros H. apply (f_equal (@List.length string)) in H.
  rewrite split_length in H. discriminate.
Qed.

(** Joining the pieces of a split with the separator gives the string
    back. *)
Lemma join_split sep s : Str.join (String sep EmptyString) (Str.split sep s) = s.
Proof.
  induction s as [|c s IH]; [reflexivity|].
  cbn [Str.split].
  destruct (Ascii.eqb c sep) eqn:E.
  - apply Ascii.eqb_eq in E. subst c.
    destruct (Str.split sep s) as [|w ws] eqn:Hs; [now apply split_nonempty in Hs|].
    cbn [Str.join]. cbn [Str.join] in IH. now rewrite IH.
  - destruct (Str.split sep s) as [|w ws] eqn:Hs; [now apply split_nonempty in Hs|].
    destruct ws as [|w' ws]; cbn [Str.join] in *; now rewrite <- IH.
Qed.

(** No piece of a split holds the separator. *)
Lemma split_pieces_without_separator sep s :
  Forall (fun piece => Str.count sep piece = 0%nat) (Str.split sep s).
Proof.
  induction s as [|c s IH]; cbn [Str.split].
  - repeat constructor.
  - destruct (Ascii.eqb c sep) eqn:E.
    + constructor; [reflexivity | assumption].
    + destruct (Str.split sep s) as [|w ws]; [repeat constructor; simpl; now rewrite E|].
      inversion IH as [|? ? Hw Hws]; subst.
      constructor; [|assumption]. simpl. now rewrite E.
Qed.

(** X17. When the model answers, the keywords of the smart search are
    the pieces of the answer between its commas, each trimmed: the
    pieces hold no comma and give the answer back when joined with
    commas, there is one more of them than the answer has commas, each
    keyword is its piece stripped, and stripping a keyword again changes
    nothing. *)
Theorem smart_search_keywords_are_trimmed send_message query category db response :
  send_message (smart_search_prompt query category) = Return response ->
  exists pieces,
    Str.join "," pieces = response
    /\ Forall (fun piece => Str.count "," piece = 0%nat) pieces
    /\ List.length pieces = S (Str.count "," response)
    /\ run (get_smart_search_results send_message query category) db
       = (db, Return (map Str.strip pieces))
    /\ Forall (fun k => Str.strip k = k) (map Str.strip pieces).
Proof.
  intros Hr. exists (Str.split "," response).
  split; [apply join_split|].
  split; [apply split_pieces_without_separator|].
  split; [apply split_length|].
  split.
  - unfold run. now rewrite get_smart_search_results_run, Hr.
  - apply List.Forall_forall. intros k Hk.
    apply in_map_iff in Hk as (raw & <- & _). apply strip_idempotent.
Qed.

Lemma smart_search_keywords_are_trimmed_witness :
  exists pieces,
    Str.join "," pieces = " gizmo ,  GADGET"
    /\ Forall (fun piece => Str.count "," piece = 0%nat) pieces
    /\ List.length pieces = S (Str.count "," " gizmo ,  GADGET")
    /\ run (get_smart_search_results (ai_says " gizmo ,  GADGET") "widget" None) widget_db
       = (widget_db, Return (map Str.strip pieces))
    /\ Forall (fun k => Str.strip k = k) (map Str.strip pieces).
Proof.
  apply (smart_search_keywords_are_trimmed (ai_says " gizmo ,  GADGET") "widget" None
           widget_db " gizmo ,  GADGET").
  reflexivity.
Defined.

(** The keywords of that answer. *)
Example smart_search_keywords_of_an_answer :
  outcome (get_smart_search_results (ai_says " gizmo ,  GADGET") "widget" None) widget_db
  = Return ["gizmo"; "GADGET"].
Proof. reflexivity. Qed.

(** X18. When the model answers, every recommended category is trimmed
    and in lower case: neither stripping nor lower-casing it again
    changes it. *)
Theorem recommended_categories_are_normalised send_message user_id db response :
  send_message (recommendation_prompt (recommendation_context db user_id))
    = Return response ->
  exists categories,
    run (get_product_recommendations send_message user_id) db = (db, Return categories)
    /\ Forall (fun c => Str.lower c = c /\ Str.strip c = c) categories.
Proof.
  intros Hr. exists (categories_of response).
  unfold run. rewrite get_product_recommendations_run, Hr.
  split; [reflexivity|].
  apply List.Forall_forall. intros c Hc.
  unfold categories_of in Hc. apply in_map_iff in Hc as (raw & <- & _). split.
  - apply lower_idempotent.
  - now rewrite strip_lower, strip_idempotent.
Qed.

Lemma recommended_categories_are_normalised_witness :
  exists categories,
    run (get_product_recommendations (ai_says " Home, ,hOme") "u1") widget_cart_db
    = (widget_cart_db, Return categories)
    /\ Forall (fun c => Str.lower c = c /\ Str.strip c = c) categories.
Proof.
  apply (recommended_categories_are_normalised (ai_says " Home, ,hOme") "u1"
           widget_cart_db " Home, ,hOme").
  reflexivity.
Defined.

(** ** More on the conversation turn and on prompts *)

(** X19. A conversation turn only ever appends to the chat history: the
    earlier records stay as they were and in place, at most one record
    is added, and catalog and cart are not touched, whether the turn
    returns or fails. *)
Theorem chat_with_ai_only_appends send_message lib body fr db :
  exists added,
    chat_history (db_after (chat_with_ai send_message lib body fr) db)
      = (chat_history db ++ added)%list
    /\ (List.length added <= 1)%nat
    /\ products (db_after (chat_with_ai send_message lib body fr) db) = products db
    /\ cart (db_after (chat_with_ai send_message lib body fr) db) = cart db.
Proof.
  assert (Hsame : exists added : list ChatMessage.t,
             chat_history db = (chat_history db ++ added)%list
             /\ (List.length added <= 1)%nat
             /\ products db = products db /\ cart db = cart db).
  { exists []. rewrite app_nil_r. repeat split. simpl. lia. }
  unfold db_after. rewrite chat_with_ai_run. cbv zeta.
  destruct (user_id_query lib _) as [selects|]; [|exact Hsame].
  destruct (send_message _) as [response|e]; [|exact Hsame].
  destruct (str_field lib _) as [uid|]; [|exact Hsame].
  destruct (str_field lib _) as [text|]; [|exact Hsame].
  simpl. eexists [_]. repeat split. simpl. lia.
Qed.

Lemma resolved_length {B} (render : CartItem.t -> Product.t -> B) db l :
  (List.length (resolved db l render) <= List.length l)%nat.
Proof.
  unfold resolved. induction l as [|item l IH]; simpl; [lia|].
  rewrite length_app.
  destruct (List.find _ (products db)); simpl; lia.
Qed.

(** X20. A cart listing holds at most one hundred entries, however many
    the user has: the entries listed are the resolvable ones among the
    user's first hundred, in the order of the store. *)
Theorem get_cart_lists_at_most_hundred user_id db :
  exists items,
    outcome (get_cart user_id) db = Return items
    /\ (List.length items <= 100)%nat
    /\ map fst items
       = List.filter
           (fun item =>
              match List.find (product_id_is (CartItem.product_id item)) (products db) with
              | Some _ => true
              | None => false
              end)
           (firstn 100 (List.filter (cart_user_is user_id) (cart db))).
Proof.
  eexists. unfold outcome. rewrite get_cart_run. simpl.
  split; [reflexivity|]. split.
  - etransitivity; [apply resolved_length|].
    unfold user_cart_of. rewrite length_firstn. lia.
  - unfold user_cart_of, resolved.
    induction (firstn 100 (List.filter (cart_user_is user_id) (cart db))) as [|item l IH];
      simpl; [reflexivity|].
    rewrite map_app, IH.
    now destruct (List.find _ (products db)).
Qed.

Lemma resolved_nil {B} (render : CartItem.t -> Product.t -> B) db l :
  Forall (fun item =>
            List.find (product_id_is (CartItem.product_id item)) (products db) = None) l ->
  resolved db l render = [].
Proof.
  unfold resolved. induction 1 as [|item l Hitem _ IH]; simpl; [reflexivity|].
  now rewrite Hitem, IH.
Qed.

(** X21. For a user none of whose (first ten) cart entries resolves to a
    product, in particular a user with an empty cart, the model is asked
    with the fixed texts for that case: the chat prompt says the cart is
    empty, and the recommendation prompt speaks of a new user. *)
Theorem prompts_for_user_without_history send_message lib body fr user_id text db :
  Forall (fun item =>
            List.find (product_id_is (CartItem.product_id item)) (products db) = None)
    (user_cart_of db user_id 10) ->
  (default (JString "anonymous") (body !! "user_id") = JString user_id ->
   default (JString "") (body !! "message") = JString text ->
   run (chat_with_ai send_message lib body fr) db
   = match send_message ("User's cart contains: empty. User asks: " ++ text) with
     | Return response =>
         (with_chat_history
            (fun l => l ++ [ChatMessage.mk (fresh_id fr) user_id text response
                              (fresh_time fr)])%list db,
          Return response)
     | Raise e => (db, Raise (HTTPException 500 (str e)))
     end)
  /\ run (get_product_recommendations send_message user_id) db
     = match send_message
               "Based on this context: New user with no purchase history. Recommend 3-5 product categories or types that would complement their interests. Return only category names separated by commas." with
       | Return response => (db, Return (categories_of response))
       | Raise e => (db, Raise e)
       end.
Proof.
  intros Hnone. split.
  - intros Huser Htext. unfold run.
    rewrite (chat_with_ai_text_run send_message lib body fr db text user_id Htext Huser).
    unfold chat_context. now rewrite resolved_nil.
  - unfold run. rewrite get_product_recommendations_run.
    unfold recommendation_context. now rewrite resolved_nil.
Qed.

Lemma prompts_for_user_without_history_witness :
  run (chat_with_ai (ai_says "Hello!") strict_lib empty_body fresh_a) widget_cart_db
  = (with_chat_history
       (fun l => l ++ [ChatMessage.mk "c-1" "anonymous" "" "Hello!" 2000])%list
       widget_cart_db,
     Return "Hello!")
  /\ run (get_product_recommendations (ai_says "Home") "anonymous") widget_cart_db
     = (widget_cart_db, Return ["home"]).
Proof.
  assert (Hnone : Forall (fun item =>
                     List.find (product_id_is (CartItem.product_id item))
                       (products widget_cart_db) = None)
                    (user_cart_of widget_cart_db "anonymous" 10)) by constructor.
  split.
  - apply (proj1 (prompts_for_user_without_history
                    (ai_says "Hello!") strict_lib empty_body fresh_a "anonymous" ""
                    widget_cart_db Hnone)).
    + reflexivity.
    + reflexivity.
  - apply (proj2 (prompts_for_user_without_history
                    (ai_says "Home") strict_lib empty_body fresh_a "anonymous" ""
                    widget_cart_db Hnone)).
Defined.

(** ** Recommendations when the model fails *)

(** X22. When the model call of a recommendation request raises, no
    product is looked up: the request ends in a 500 that carries the
    text of the exception, and the database is as before. *)
Theorem get_recommendations_surfaces_ai_failure send_message regex_compile user_id db e :
  send_message (recommendation_prompt (recommendation_context db user_id)) = Raise e ->
  run (get_recommendations send_message regex_compile user_id) db
  = (db, Raise (HTTPException 500 (str e))).
Proof.
  intros He. unfold run, get_recommendations, reraise_500, try_except.
  now rewrite bind_run, get_product_recommendations_run, He.
Qed.

Lemma get_recommendations_surfaces_ai_failure_witness :
  run (get_recommendations ai_down LiteralRegex.compile "u1") widget_cart_db
  = (widget_cart_db, Raise (HTTPException 500 "provider unavailable")).
Proof.
  apply (get_recommendations_surfaces_ai_failure ai_down LiteralRegex.compile "u1"
           widget_cart_db (UpstreamError "provider unavailable")).
  reflexivity.
Defined.

(** ** Writing the cart, then listing it *)

Lemma filter_user_update_first P q user_id (l : list CartItem.t) :
  List.length (List.filter (cart_user_is user_id)
                 (update_first P (CartItem.set_quantity q) l))
  = List.length (List.filter (cart_user_is user_id) l).
Proof.
  induction l as [|x l IH]; simpl; [reflexivity|].
  destruct (P x); simpl.
  - change (cart_user_is user_id (CartItem.set_quantity q x))
      with (cart_user_is user_id x).
    now destruct (cart_user_is user_id x).
  - destruct (cart_user_is user_id x); simpl; now rewrite IH.
Qed.

Lemma add_to_cart_user_entries req fr db user_id :
  (List.length (List.filter (cart_user_is user_id)
                  (cart (db_after (add_to_cart req fr) db)))
   <= S (List.length (List.filter (cart_user_is user_id) (cart db))))%nat.
Proof.
  destruct (add_to_cart_cases req fr db) as [-> | [(q & e & _ & ->) | (_ & ->)]].
  - lia.
  - rewrite filter_user_update_first. lia.
  - rewrite List.filter_app, length_app. simpl.
    destruct (cart_user_is user_id _); simpl; lia.
Qed.

(** X23. An add shows in the listing: after an add for a product of the
    catalog, into a cart with pairwise distinct identifiers in which the
    user has fewer than a hundred entries, the user's cart listing holds
    the entry the add returned, together with the product. *)
Theorem add_to_cart_then_get_cart_lists_entry req fr db p :
  List.find (product_id_is (CartItemCreate.product_id req)) (products db) = Some p ->
  List.NoDup (map CartItem.id (cart db)) ->
  (List.length (List.filter (cart_user_is (CartItemCreate.user_id req)) (cart db)) < 100)%nat ->
  exists item items,
    outcome (add_to_cart req fr) db = Return item
    /\ outcome (get_cart (CartItemCreate.user_id req)) (db_after (add_to_cart req fr) db)
       = Return items
    /\ In (item, p) items.
Proof.
  intros Hp Hnodup Hfew.
  destruct (add_to_cart_stored req fr db p Hp Hnodup)
    as (item & Hout & Hfind & Hpid & Huid & _).
  exists item. eexists. split; [exact Hout|].
  unfold outcome. rewrite get_cart_run. simpl. split; [reflexivity|].
  apply in_resolved. exists item, p. split; [|split; [|reflexivity]].
  - unfold user_cart_of. rewrite firstn_all2.
    + apply filter_In. apply find_some in Hfind as [Hin _].
      split; [assumption|]. unfold cart_user_is. now apply String.eqb_eq.
    + pose proof (add_to_cart_user_entries req fr db (CartItemCreate.user_id req)). lia.
  - destruct (add_to_cart_frame req fr db) as [-> _]. now rewrite Hpid.
Qed.

Lemma add_to_cart_then_get_cart_lists_entry_witness :
  exists item items,
    outcome (add_to_cart (CartItemCreate.mk "p-1" "u1" 3) fresh_b) widget_cart_db
    = Return item
    /\ outcome (get_cart "u1")
         (db_after (add_to_cart (CartItemCreate.mk "p-1" "u1" 3) fresh_b) widget_cart_db)
       = Return items
    /\ In (item, widget) items.
Proof.
  apply (add_to_cart_then_get_cart_lists_entry
           (CartItemCreate.mk "p-1" "u1" 3) fresh_b widget_cart_db widget).
  - reflexivity.
  - simpl. repeat constructor; simpl; intuition discriminate.
  - simpl. lia.
Defined.

(** X24. A delete shows in the listing: in a cart with pairwise distinct
    identifiers, after a delete of an identifier no cart listing holds
    an entry with that identifier. *)
Theorem remove_from_cart_then_get_cart_omits_entry item_id user_id db items :
  List.NoDup (map CartItem.id (cart db)) ->
  outcome (get_cart user_id) (db_after (remove_from_cart item_id) db) = Return items ->
  forall item product, In (item, product) items -> CartItem.id item <> item_id.
Proof.
  intros Hnodup Hout item product Hin.
  unfold outcome in Hout. rewrite get_cart_run in Hout. simpl in Hout.
  injection Hout as <-.
  apply in_resolved in Hin as (item' & p' & Hitem & _ & Heq).
  injection Heq as -> ->.
  unfold user_cart_of in Hitem. apply In_firstn in Hitem.
  apply filter_In in Hitem as [Hitem _].
  assert (Hgone : Forall (fun x => cart_id_is item_id x = false)
                    (cart (db_after (remove_from_cart item_id) db))).
  { unfold db_after.
    destruct (List.find (cart_id_is item_id) (cart db)) as [e|] eqn:Hfind.
    - destruct (find_split _ _ _ Hfind) as (l1 & l2 & Hcart & Hl1 & He).
      rewrite (remove_from_cart_present item_id db l1 e l2) by assumption. simpl.
      assert (Hid : CartItem.id e = item_id) by now apply String.eqb_eq.
      rewrite Hcart in Hnodup. subst item_id.
      apply Forall_app. split; [assumption|].
      now apply unique_ids_after with (l1 := l1).
    - rewrite remove_from_cart_absent by assumption. simpl.
      now apply find_none_Forall. }
  rewrite List.Forall_forall in Hgone. specialize (Hgone item' Hitem).
  now apply String.eqb_neq.
Qed.

Lemma remove_from_cart_then_get_cart_omits_entry_witness :
  CartItem.id (CartItem.mk "c-1" "p-1" "u1" 2 2000) <> "c-0".
Proof.
  apply (remove_from_cart_then_get_cart_omits_entry "c-0" "u1" widget_cart_db
           [(CartItem.mk "c-1" "p-1" "u1" 2 2000, widget)]) with (product := widget).
  - simpl. repeat constructor; simpl; intuition discriminate.
  - reflexivity.
  - now left.
Defined.
